(** * WebStreamer.server.stream_routes: range planning, backend selection,
      session cache and error mapping of the HTTP gateway.

    The development embeds [src/WebStreamer/server/stream_routes.py]
    shallowly: Python [int] values are [Z], [str] values are [string]
    (one character per code point below 256), [dict]s are finite maps or,
    where iteration order matters, association lists in insertion order,
    exceptions are a tagged sum and a coroutine is cut at its [await]s. *)

From Stdlib Require Import ZArith Lia List Ascii String DecimalString Sorted.
From Stdlib Require DecimalPos DecimalZ DecimalFacts.
From stdpp Require Import base option list gmap.
Import ListNotations.

Local Open Scope string_scope.
Local Open Scope Z_scope.

(** ** Python values used by the module *)

Module Py.

(** Exceptions the routes distinguish.  [InvalidHash] and [FIleNotFound]
    come from [WebStreamer.server.exceptions] and carry the [message]
    attribute the handlers read; [BadStatusLine] is aiohttp's; the
    others are built-in.  [OtherException] stands for any further
    subclass of [Exception], with its class name and its [str()]. *)
Inductive exn : Type :=
| InvalidHash (message : string)
| FIleNotFound (message : string)
| AttributeError (msg : string)
| BadStatusLine (msg : string)
| ConnectionResetError (msg : string)
| ValueError (msg : string)
| KeyError (msg : string)
| TypeError (msg : string)
| OtherException (cls : string) (msg : string).

(** [str(e)] *)
Definition str_exn (e : exn) : string :=
  match e with
  | InvalidHash m | FIleNotFound m | AttributeError m | BadStatusLine m
  | ConnectionResetError m | ValueError m | KeyError m | TypeError m
  | OtherException _ m => m
  end.

(** A computation that returns or raises. *)
Definition M (A : Type) : Type := exn + A.
Definition ret {A} (a : A) : M A := inr a.
Definition raise {A} (e : exn) : M A := inl e.
Definition bind {A B} (m : M A) (k : A -> M B) : M B :=
  match m with
  | inl e => inl e
  | inr a => k a
  end.

(** The double-quote character as a one-character [str]. *)
Definition dquote : string := String (ascii_of_nat 34) EmptyString.

(** Truth value of a [str]: the empty string is false. *)
Definition truthy (s : string) : bool :=
  match s with
  | EmptyString => false
  | String _ _ => true
  end.

(** [a or b] on [str | None] operands whose right operand is a [str]. *)
Definition or_str (a : option string) (b : string) : string :=
  match a with
  | Some s => if truthy s then s else b
  | None => b
  end.

(** [a or b] on [str | None] operands whose right operand may be [None]. *)
Definition or_opt (a b : option string) : option string :=
  match a with
  | Some s => if truthy s then Some s else b
  | None => b
  end.

(** [a or b] on [int | None] with an [int] right operand: [None] and [0]
    are false. *)
Definition or_int (a : option Z) (b : Z) : Z :=
  match a with
  | Some n => if n =? 0 then b else n
  | None => b
  end.

(** [str(n)] for an [int]: its decimal.  CPython converts an [int] of at
    most 4300 digits; on a longer one it raises [ValueError], which this
    total function does not follow. *)
Definition str (n : Z) : string := NilZero.string_of_int (Z.to_int n).

(** [s.replace(old, new)]: every non-overlapping occurrence, leftmost
    first.  [skip] counts the characters of a match still to be dropped. *)
Fixpoint replace_from (old new : string) (skip : nat) (s : string) : string :=
  match s with
  | EmptyString => EmptyString
  | String c s' =>
      match skip with
      | S k => replace_from old new k s'
      | O =>
          if String.prefix old s
          then new ++ replace_from old new (Nat.pred (String.length old)) s'
          else String c (replace_from old new O s')
      end
  end.

(** For an empty [old] Python puts [new] around every character. *)
Fixpoint intersperse (new s : string) : string :=
  match s with
  | EmptyString => new
  | String c s' => new ++ String c (intersperse new s')
  end.

Definition replace (old new s : string) : string :=
  match old with
  | EmptyString => intersperse new s
  | String _ _ => replace_from old new O s
  end.

(** [s.split(sep)] for a non-empty separator; [cur] is the piece being
    read.  The result is never empty. *)
Fixpoint split_from (sep : string) (skip : nat) (cur s : string) : list string :=
  match s with
  | EmptyString => [cur]
  | String c s' =>
      match skip with
      | S k => split_from sep k cur s'
      | O =>
          if String.prefix sep s
          then cur :: split_from sep (Nat.pred (String.length sep)) EmptyString s'
          else split_from sep O (cur ++ String c EmptyString) s'
      end
  end.

Definition split (sep s : string) : M (list string) :=
  match sep with
  | EmptyString => raise (ValueError "empty separator")
  | String _ _ => ret (split_from sep O EmptyString s)
  end.

(** Characters [int()] skips around a literal, among the code points below
    256: the ASCII white space of C's [isspace] and the two non-ASCII
    spaces U+0085 and U+00A0.  (The separators U+001C to U+001F are white
    space for [str.isspace] but not for [int()].) *)
Definition is_space (c : ascii) : bool :=
  let n := nat_of_ascii c in
  ((9 <=? n) && (n <=? 13) || (n =? 32) || (n =? 133) || (n =? 160))%nat.

Definition digit_value (c : ascii) : option Z :=
  let n := nat_of_ascii c in
  if ((48 <=? n) && (n <=? 57))%nat then Some (Z.of_nat n - 48) else None.

(** Where the scan of [int(s)] stands. *)
Inductive int_state : Type :=
| Leading                (* skipping leading white space *)
| Signed                 (* a sign was read, a digit must follow *)
| Digits                 (* the last character was a digit *)
| Underscore             (* the last character was a single [_] *)
| Trailing.              (* skipping trailing white space *)

(** How the scan ends. *)
Inductive int_result : Type :=
| Parsed (n : Z)
| Invalid                (* invalid literal *)
| TooLong (digits : nat). (* more digits than the interpreter converts *)

(** [sys.get_int_max_str_digits()], which the module leaves at its default
    (CPython 3.11). *)
Definition int_max_str_digits : nat := 4300.

(** The least positive [int] whose decimal is longer than the limit. *)
Definition int_limit : Z := 10 ^ Z.of_nat int_max_str_digits.

(** The scan of CPython's [PyLong_FromString] in base 10: white space, an
    optional sign, digits with single underscores between them, white
    space.  [acc] is the magnitude read so far and [digits] the number of
    digits read.  The digit limit is tested where the run of digits and
    underscores ends, after the underscore rules and before anything that
    follows the run is looked at. *)
Fixpoint int_scan (st : int_state) (neg : bool) (acc : Z) (digits : nat)
    (s : string) : int_result :=
  match s with
  | EmptyString =>
      match st with
      | Digits =>
          if (int_max_str_digits <? digits)%nat then TooLong digits
          else Parsed (if neg then - acc else acc)
      | Trailing => Parsed (if neg then - acc else acc)
      | Leading | Signed | Underscore => Invalid
      end
  | String c s' =>
      match st with
      | Leading =>
          if is_space c then int_scan Leading neg acc digits s'
          else if Ascii.eqb c "+" then int_scan Signed false acc digits s'
          else if Ascii.eqb c "-" then int_scan Signed true acc digits s'
          else match digit_value c with
               | Some d => int_scan Digits neg d 1 s'
               | None => Invalid
               end
      | Signed =>
          match digit_value c with
          | Some d => int_scan Digits neg d 1 s'
          | None => Invalid
          end
      | Digits =>
          match digit_value c with
          | Some d => int_scan Digits neg (10 * acc + d) (S digits) s'
          | None =>
              if Ascii.eqb c "_" then int_scan Underscore neg acc digits s'
              else if (int_max_str_digits <? digits)%nat then TooLong digits
              else if is_space c then int_scan Trailing neg acc digits s'
              else Invalid
          end
      | Underscore =>
          match digit_value c with
          | Some d => int_scan Digits neg (10 * acc + d) (S digits) s'
          | None => Invalid
          end
      | Trailing =>
          if is_space c then int_scan Trailing neg acc digits s' else Invalid
      end
  end.

(** Whether [int(s)] returns. *)
Definition int_accepts (s : string) : bool :=
  match int_scan Leading false 0 0 s with
  | Parsed _ => true
  | Invalid | TooLong _ => false
  end.

(** [repr(s)] of a [str] of code points below 256: in single quotes unless
    the text has a single and no double quote; the quote and the backslash
    escaped, tab, newline and return by letter, the other code points that
    are not printable (the controls, U+007F to U+00A0 and U+00AD) in
    hexadecimal. *)
Definition hex_digit (n : nat) : ascii :=
  ascii_of_nat (if (n <? 10)%nat then 48 + n else 87 + n).

Definition squote : ascii := ascii_of_nat 39.
Definition backslash : ascii := ascii_of_nat 92.

Fixpoint has_char (c : ascii) (s : string) : bool :=
  match s with
  | EmptyString => false
  | String a s' => (Ascii.eqb a c || has_char c s')%bool
  end.

Definition repr_quote (s : string) : ascii :=
  if (has_char squote s && negb (has_char (ascii_of_nat 34) s))%bool
  then ascii_of_nat 34 else squote.

Definition repr_char (quote c : ascii) : string :=
  let n := nat_of_ascii c in
  if (Ascii.eqb c quote || Ascii.eqb c backslash)%bool
  then String backslash (String c EmptyString)
  else if (n =? 9)%nat then String backslash "t"
  else if (n =? 10)%nat then String backslash "n"
  else if (n =? 13)%nat then String backslash "r"
  else if ((n <? 32) || (127 <=? n) && (n <=? 160) || (n =? 173))%nat
  then String backslash
         (String "x" (String (hex_digit (n / 16))
                        (String (hex_digit (n mod 16)) EmptyString)))
  else String c EmptyString.

Fixpoint repr_body (quote : ascii) (s : string) : string :=
  match s with
  | EmptyString => String quote EmptyString
  | String c s' => repr_char quote c ++ repr_body quote s'
  end.

Definition repr (s : string) : string :=
  String (repr_quote s) (repr_body (repr_quote s) s).

(** [int(s)] for a [str].  The text of an invalid literal is formatted
    with [%.200R]: the first 200 characters of [repr(s)]. *)
Definition int (s : string) : M Z :=
  match int_scan Leading false 0 0 s with
  | Parsed n => ret n
  | Invalid =>
      raise (ValueError ("invalid literal for int() with base 10: "
                           ++ String.substring 0 200 (repr s)))
  | TooLong digits =>
      raise (ValueError
               ("Exceeds the limit (" ++ str (Z.of_nat int_max_str_digits)
                  ++ " digits) for integer string conversion: value has "
                  ++ str (Z.of_nat digits)
                  ++ " digits; use sys.set_int_max_str_digits() to increase the limit"))
  end.

(** [math.ceil(a / b)] and [math.floor(a / b)] for [int]s and [b > 0].
    The quotient is a float in Python; with [b] a power of two it is exact
    for every [a] below [2^53] in magnitude, and there these integer
    quotients are its ceiling and floor.  From [2^53] on Python rounds
    [a / b] to the nearest float, and from about [2^1044] on it raises
    [OverflowError]; the integer quotients here follow neither. *)
Definition ceil_div (a b : Z) : Z := - ((- a) / b).
Definition floor_div (a b : Z) : Z := a / b.

(** [min(xs, key=key)]: the first element whose key is smallest.  A key
    that is [None] cannot be compared. *)
Fixpoint min_loop {K} (key : K -> option Z) (best : K) (kbest : Z)
    (rest : list K) : M K :=
  match rest with
  | [] => ret best
  | x :: rest' =>
      match key x with
      | Some kx =>
          if kx <? kbest then min_loop key x kx rest'
          else min_loop key best kbest rest'
      | None => raise (TypeError "'<' not supported between instances")
      end
  end.

Definition min_by {K} (key : K -> option Z) (xs : list K) : M K :=
  match xs with
  | [] => raise (ValueError "min() arg is an empty sequence")
  | x :: rest =>
      match key x, rest with
      | Some kx, _ => min_loop key x kx rest
      | None, [] => ret x
      | None, _ :: _ => raise (TypeError "'<' not supported between instances")
      end
  end.

(** [sorted(xs, key=key, reverse=True)]: descending by key, and stable:
    elements of equal key keep their order.  [insert_desc] puts [x], which
    comes before every element of [l] in the input, in front of the first
    element whose key is not greater. *)
Fixpoint insert_desc {A} (key : A -> Z) (x : A) (l : list A) : list A :=
  match l with
  | [] => [x]
  | y :: l' =>
      if key y <=? key x then x :: y :: l'
      else y :: insert_desc key x l'
  end.

Fixpoint sorted_desc {A} (key : A -> Z) (xs : list A) : list A :=
  match xs with
  | [] => []
  | x :: xs' => insert_desc key x (sorted_desc key xs')
  end.

(** [d[k] = v] on a dict with [str] keys kept in insertion order: an
    existing key keeps its place. *)
Fixpoint dict_set {V} (d : list (string * V)) (k : string) (v : V)
  : list (string * V) :=
  match d with
  | [] => [(k, v)]
  | (k', v') :: d' =>
      if String.eqb k' k then (k', v) :: d' else (k', v') :: dict_set d' k v
  end.

(** [dict(pairs)] *)
Definition dict_of {V} (pairs : list (string * V)) : list (string * V) :=
  fold_left (fun d kv => dict_set d (fst kv) (snd kv)) pairs [].

(** [s.count(c)] for a one-character [c]. *)
Fixpoint count_char (c : ascii) (s : string) : nat :=
  match s with
  | EmptyString => O
  | String a s' => if Ascii.eqb a c then S (count_char c s') else count_char c s'
  end.

End Py.

Notation "x <- m ;; k" := (Py.bind m (fun x => k))
  (at level 100, m at next level, right associativity).

(** ** Requests, responses and the shared state *)

(** A backend client and a [ByteStreamer] are Python objects: they are
    told apart by identity, which is a number here. *)
Abbreviation Client := nat.

Record ByteStreamer : Type := {
  bs_id : nat;                      (* identity of the session object *)
  bs_client : Client                (* the client it was built for *)
}.

(** What [get_file_properties] resolves a path to. *)
Record FileId : Type := {
  file_size : Z;
  mime_type : option string
}.

(** The part of [web.Request] the routes read.  [headers] is keyed by the
    header name as the code spells it. *)
Record Request : Type := {
  headers : gmap string string;
  match_info_path : string
}.

(** The arguments of [tg_connect.yield_file], the lazily produced body. *)
Record YieldFile : Type := {
  yf_session : ByteStreamer;
  yf_file_id : FileId;
  yf_index : Z;
  yf_offset : Z;
  yf_first_part_cut : Z;
  yf_last_part_cut : Z;
  yf_part_count : Z;
  yf_chunk_size : Z
}.

Inductive Body : Type :=
| BodyText (text : string)
| BodyStream (gen : YieldFile).

(** [web.Response]; [resp_headers] is the [headers] dict in insertion order. *)
Record Response : Type := {
  status : Z;
  body : Body;
  resp_headers : list (string * string);
  content_type : option string
}.

(** How a route handler ends: it returns a response, falls off its end
    (returns [None]), or raises one of aiohttp's HTTP exceptions. *)
Inductive HandlerResult : Type :=
| Respond (r : Response)
| ReturnNone
| HTTPForbidden (text : string)
| HTTPNotFound (text : string)
| HTTPInternalServerError (text : string).

(** Status code a client sees for a response, a raised HTTP exception or
    a handler that returned [None]: aiohttp answers the last one as it
    answers [HTTPInternalServerError()]. *)
Definition http_status (h : HandlerResult) : option Z :=
  match h with
  | Respond r => Some (status r)
  | ReturnNone => Some 500
  | HTTPForbidden _ => Some 403
  | HTTPNotFound _ => Some 404
  | HTTPInternalServerError _ => Some 500
  end.

(** The text a client reads in the body, where the body is a text: that
    of the response, the [text] of the raised HTTP exception, or the
    default text of [HTTPInternalServerError] for a handler that
    returned [None]. *)
Definition http_text (h : HandlerResult) : option string :=
  match h with
  | Respond r =>
      match body r with
      | BodyText t => Some t
      | BodyStream _ => None
      end
  | ReturnNone => Some "500: Internal Server Error"
  | HTTPForbidden text | HTTPNotFound text | HTTPInternalServerError text =>
      Some text
  end.

(** The module-level state: [work_loads] (a dict, in insertion order),
    [multi_clients], [class_cache], and the [ByteStreamer] objects
    constructed so far, oldest first. *)
Record World : Type := {
  work_loads : list (Z * Z);
  multi_clients : gmap Z Client;
  class_cache : gmap Client ByteStreamer;
  constructed : list ByteStreamer
}.

(** [d.get(k)] and iteration over the keys of an insertion-ordered dict. *)
Fixpoint dict_get (d : list (Z * Z)) (k : Z) : option Z :=
  match d with
  | [] => None
  | (k', v) :: d' => if k' =? k then Some v else dict_get d' k
  end.

Definition dict_keys (d : list (Z * Z)) : list Z := map fst d.

(** [utils.ByteStreamer(client)]: a new object, distinct from every
    earlier one. *)
Definition new_ByteStreamer (w : World) (client : Client) : ByteStreamer :=
  {| bs_id := List.length (constructed w); bs_client := client |}.

(** aiohttp's [BaseRequest.http_range] (a dependency, not this repository's
    code): the [Range] header matched against the pattern
    bytes=DIGITS-DIGITS (both runs possibly empty) and turned into a slice
    [(start, stop)]. *)
Fixpoint span_digits (s : string) : string * string :=
  match s with
  | EmptyString => (EmptyString, EmptyString)
  | String c s' =>
      match Py.digit_value c with
      | Some _ => let (d, r) := span_digits s' in (String c d, r)
      | None => (EmptyString, s)
      end
  end.

Definition strip_prefix (p s : string) : option string :=
  if String.prefix p s
  then Some (String.substring (String.length p)
                              (String.length s - String.length p) s)
  else None.

(** [int(d) if d else None] for a run of digits. *)
Definition digits_opt (d : string) : Py.M (option Z) :=
  if Py.truthy d then (n <- Py.int d ;; Py.ret (Some n)) else Py.ret None.

Definition http_range (rng : option string) : Py.M (option Z * option Z) :=
  match rng with
  | None => Py.ret (None, None)
  | Some h =>
      let bad := Py.raise (Py.ValueError "range not in acceptable format") in
      match strip_prefix "bytes=" h with
      | None => bad
      | Some r1 =>
          let (ds, r2) := span_digits r1 in
          match r2 with
          | String "-" r3 =>
              let (de, r4) := span_digits r3 in
              if (String.eqb r4 EmptyString
                  || String.eqb r4 (String "010" EmptyString))%bool then
                end_ <- digits_opt de ;;
                start <- digits_opt ds ;;
                match start, end_ with
                | None, None =>
                    Py.raise (Py.ValueError "No start or end of range specified")
                | None, Some e => Py.ret (Some (- e), None)
                | Some b, None => Py.ret (Some b, None)
                | Some b, Some e =>
                    if b >=? e + 1
                    then Py.raise (Py.ValueError "start cannot be after end")
                    else Py.ret (Some b, Some (e + 1))
                end
              else bad
          | _ => bad
          end
      end
  end.

(** ** The routes *)

Section Routes.

(** Collaborators outside this module: the resolver behind
    [tg_connect.get_file_properties], [utils.get_name],
    [mimetypes.guess_type(...)[0]] and [render_page]. *)
Variable get_file_properties :
  ByteStreamer -> string -> gmap Z Client -> Py.M FileId.
Variable get_name : FileId -> string.
Variable guess_type : string -> option string.
Variable render_page : string -> Py.M string.

Definition chunk_size : Z := 1024 * 1024.

(** Lines 126-140: read the header, pick the least loaded client and
    find or build its session.  Nothing here awaits. *)
Definition select_index (w : World) : Py.M Z :=
  Py.min_by (dict_get (work_loads w)) (dict_keys (work_loads w)).

Definition lookup_client (w : World) (index : Z) : Py.M Client :=
  match multi_clients w !! index with
  | Some c => Py.ret c
  | None => Py.raise (Py.KeyError (Py.str index))
  end.

Definition get_session (w : World) (faster_client : Client)
  : ByteStreamer * World :=
  match class_cache w !! faster_client with
  | Some tg_connect => (tg_connect, w)
  | None =>
      let tg_connect := new_ByteStreamer w faster_client in
      (tg_connect,
       {| work_loads := work_loads w;
          multi_clients := multi_clients w;
          class_cache := <[faster_client := tg_connect]> (class_cache w);
          constructed := constructed w ++ [tg_connect] |})
  end.

Definition media_streamer_connect (w : World)
  : Py.M (Z * ByteStreamer * World) :=
  index <- select_index w ;;
  faster_client <- lookup_client w index ;;
  let (tg_connect, w') := get_session w faster_client in
  Py.ret (index, tg_connect, w').

(** Lines 145-151: the requested range, before validation. *)
Definition parse_range (request : Request) (file_size : Z) : Py.M (Z * Z) :=
  let range_header := headers request !! "Range" in
  let from_http_range :=
    rg <- http_range range_header ;;
    Py.ret (Py.or_int (fst rg) 0, Py.or_int (snd rg) file_size - 1) in
  match range_header with
  | Some (String _ _ as h) =>
      parts <- Py.split "-" (Py.replace "bytes=" EmptyString h) ;;
      match parts with
      | [from_bytes; until_bytes] =>
          from_bytes <- Py.int from_bytes ;;
          until_bytes <- (if Py.truthy until_bytes then Py.int until_bytes
                          else Py.ret (file_size - 1)) ;;
          Py.ret (from_bytes, until_bytes)
      | [_] =>
          Py.raise (Py.ValueError "not enough values to unpack (expected 2, got 1)")
      | _ =>
          Py.raise (Py.ValueError "too many values to unpack (expected 2)")
      end
  | Some EmptyString | None => from_http_range
  end.

(** [status=206 if range_header else 200] *)
Definition range_requested (request : Request) : bool :=
  match headers request !! "Range" with
  | Some h => Py.truthy h
  | None => false
  end.

(** Lines 153-158. *)
Definition range_not_satisfiable (file_size from_bytes until_bytes : Z) : bool :=
  ((until_bytes >? file_size) || (from_bytes <? 0)
   || (until_bytes <? from_bytes))%bool.

Definition response_416 (file_size : Z) : Response :=
  {| status := 416;
     body := BodyText "416: Range not satisfiable";
     resp_headers := [("Content-Range", "bytes */" ++ Py.str file_size)];
     content_type := None |}.

(** Lines 160-168: the chunk plan and the announced length. *)
Record ChunkPlan : Type := {
  offset : Z;
  first_part_cut : Z;
  last_part_cut : Z;
  part_count : Z
}.

Definition clamp_until (file_size until_bytes : Z) : Z :=
  Z.min until_bytes (file_size - 1).

Definition chunk_plan (chunk_size from_bytes until_bytes : Z) : ChunkPlan :=
  let offset := from_bytes - (from_bytes mod chunk_size) in
  let first_part_cut := from_bytes - offset in
  let last_part_cut := until_bytes mod chunk_size + 1 in
  let part_count :=
    Py.ceil_div until_bytes chunk_size - Py.floor_div offset chunk_size in
  {| offset := offset; first_part_cut := first_part_cut;
     last_part_cut := last_part_cut; part_count := part_count |}.

Definition req_length (from_bytes until_bytes : Z) : Z :=
  until_bytes - from_bytes + 1.

(** Lines 153-196, once the range is parsed. *)
Definition build_response (request : Request) (is_video : bool)
    (index : Z) (tg_connect : ByteStreamer) (file_id : FileId)
    (from_bytes until_bytes : Z) : Response :=
  let file_size := file_size file_id in
  if range_not_satisfiable file_size from_bytes until_bytes then
    response_416 file_size
  else
    let until_bytes := clamp_until file_size until_bytes in
    let plan := chunk_plan chunk_size from_bytes until_bytes in
    let body :=
      {| yf_session := tg_connect; yf_file_id := file_id; yf_index := index;
         yf_offset := offset plan;
         yf_first_part_cut := first_part_cut plan;
         yf_last_part_cut := last_part_cut plan;
         yf_part_count := part_count plan;
         yf_chunk_size := chunk_size |} in
    let mime_type :=
      Py.or_str (Py.or_opt (mime_type file_id) (guess_type (get_name file_id)))
                "application/octet-stream" in
    let disposition := if is_video then "inline" else "attachment" in
    let headers :=
      [ ("Content-Type", mime_type);
        ("Content-Range",
         "bytes " ++ Py.str from_bytes ++ "-" ++ Py.str until_bytes
           ++ "/" ++ Py.str file_size);
        ("Content-Length", Py.str (req_length from_bytes until_bytes));
        ("Content-Disposition",
         disposition ++ "; filename=" ++ Py.dquote ++ get_name file_id
           ++ Py.dquote);
        ("Accept-Ranges", "bytes");
        ("Access-Control-Allow-Origin", "*");
        ("Access-Control-Allow-Methods", "GET, HEAD, OPTIONS") ]%string in
    let headers :=
      if is_video then (headers ++ [("X-Frame-Options", "ALLOWALL")])%list
      else headers in
    {| status := if range_requested request then 206 else 200;
       body := BodyStream body;
       resp_headers := headers;
       content_type := None |}.

(** Lines 142-196: what runs after [get_file_properties] has answered. *)
Definition media_streamer_respond (request : Request) (is_video : bool)
    (index : Z) (tg_connect : ByteStreamer) (resolved : Py.M FileId)
  : Py.M Response :=
  file_id <- resolved ;;
  range <- parse_range request (file_size file_id) ;;
  Py.ret (build_response request is_video index tg_connect file_id
                         (fst range) (snd range)).

(** [media_streamer], run without interruption at its [await]. *)
Definition media_streamer (w : World) (request : Request) (db_id : string)
    (is_video : bool) : Py.M Response * World :=
  match media_streamer_connect w with
  | inl e => (inl e, w)
  | inr (index, tg_connect, w') =>
      (media_streamer_respond request is_video index tg_connect
         (get_file_properties tg_connect db_id (multi_clients w')), w')
  end.

(** The [except] clauses shared by the three routes, in source order. *)
Definition handle (outcome : Py.M Response) : HandlerResult :=
  match outcome with
  | inr r => Respond r
  | inl (Py.InvalidHash message) => HTTPForbidden message
  | inl (Py.FIleNotFound message) => HTTPNotFound message
  | inl (Py.AttributeError _) | inl (Py.BadStatusLine _)
  | inl (Py.ConnectionResetError _) => ReturnNone
  | inl e => HTTPInternalServerError (Py.str_exn e)
  end.

Definition stream_handler (w : World) (request : Request)
  : HandlerResult * World :=
  let path := match_info_path request in
  (handle (text <- render_page path ;;
           Py.ret {| status := 200; body := BodyText text;
                     resp_headers := []; content_type := Some "text/html" |}),
   w).

Definition download_handler (w : World) (request : Request)
  : HandlerResult * World :=
  let path := match_info_path request in
  let (outcome, w') := media_streamer w request path false in
  (handle outcome, w').

Definition video_stream_handler (w : World) (request : Request)
  : HandlerResult * World :=
  let path := match_info_path request in
  let (outcome, w') := media_streamer w request path true in
  (handle outcome, w').

(** *** Requests in flight

    aiohttp runs every request as a coroutine on one event loop: a
    coroutine keeps the loop from its start, or from the [await] it was
    suspended at, until its next [await] or its end.  [media_streamer]
    has one [await], on line 142, so it is run in two uninterrupted
    pieces: [media_streamer_connect] and [media_streamer_respond]. *)
Inductive Task : Type :=
| Started (request : Request) (db_id : string) (is_video : bool)
| Awaiting (request : Request) (db_id : string) (is_video : bool)
           (index : Z) (tg_connect : ByteStreamer)
| Finished (tg_connect : option ByteStreamer) (outcome : Py.M Response).

(** The session a coroutine got from the cache, if it got that far. *)
Definition held (t : Task) : option ByteStreamer :=
  match t with
  | Started _ _ _ => None
  | Awaiting _ _ _ _ tg_connect => Some tg_connect
  | Finished tg_connect _ => tg_connect
  end.

Record System : Type := {
  world : World;
  tasks : list Task
}.

(** What the event loop may do next: accept a request, resume the [i]-th
    coroutine, or run other code of the process, which updates
    [work_loads]. *)
Inductive Event : Type :=
| Arrive (request : Request) (db_id : string) (is_video : bool)
| Resume (i : nat)
| SetLoads (loads : list (Z * Z)).

Definition resume (s : System) (i : nat) : System :=
  match tasks s !! i with
  | Some (Started request db_id is_video) =>
      match media_streamer_connect (world s) with
      | inl e =>
          {| world := world s;
             tasks := <[i := Finished None (inl e)]> (tasks s) |}
      | inr (index, tg_connect, w') =>
          {| world := w';
             tasks := <[i := Awaiting request db_id is_video index tg_connect]>
                        (tasks s) |}
      end
  | Some (Awaiting request db_id is_video index tg_connect) =>
      let outcome :=
        media_streamer_respond request is_video index tg_connect
          (get_file_properties tg_connect db_id (multi_clients (world s))) in
      {| world := world s;
         tasks := <[i := Finished (Some tg_connect) outcome]> (tasks s) |}
  | Some (Finished _ _) | None => s
  end.

Definition step (s : System) (ev : Event) : System :=
  match ev with
  | Arrive request db_id is_video =>
      {| world := world s;
         tasks := tasks s ++ [Started request db_id is_video] |}
  | Resume i => resume s i
  | SetLoads loads =>
      {| world := {| work_loads := loads;
                     multi_clients := multi_clients (world s);
                     class_cache := class_cache (world s);
                     constructed := constructed (world s) |};
         tasks := tasks s |}
  end.

Definition run (s : System) (evs : list Event) : System :=
  fold_left step evs s.

(** The process as the module is imported: [class_cache = {}] and no
    request in flight. *)
Definition boot (loads : list (Z * Z)) (clients : gmap Z Client) : System :=
  {| world := {| work_loads := loads; multi_clients := clients;
                 class_cache := ∅; constructed := [] |};
     tasks := [] |}.

(** How many sessions were built for [client]. *)
Definition built_for (w : World) (client : Client) : nat :=
  List.length (filter (fun b => bs_client b = client) (constructed w)).

(** The cache holds exactly the sessions built so far, one per client,
    under the client each was built for. *)
Definition cache_consistent (w : World) : Prop :=
  (forall c b, class_cache w !! c = Some b ->
               b ∈ constructed w /\ bs_client b = c)
  /\ (forall b, b ∈ constructed w -> class_cache w !! bs_client b = Some b)
  /\ NoDup (bs_client <$> constructed w).

(** Every session a coroutine holds is one of those built. *)
Definition sessions_known (s : System) : Prop :=
  forall i t b, tasks s !! i = Some t -> held t = Some b ->
                b ∈ constructed (world s).

Definition system_ok (s : System) : Prop :=
  cache_consistent (world s) /\ sessions_known s.

End Routes.

(** The requests accepted during [evs], in order of arrival. *)
Definition arrivals (evs : list Event) : list (Request * string * bool) :=
  omap (fun ev => match ev with
                  | Arrive request db_id is_video =>
                      Some (request, db_id, is_video)
                  | _ => None
                  end) evs.

(** ** The specification's wording, for comparison with the code *)

Module Spec.

(** "fail with RangeNotSatisfiable when until >= size, from < 0, or
    until < from" *)
Definition range_not_satisfiable (size from until : Z) : bool :=
  ((until >=? size) || (from <? 0) || (until <? from))%bool.

(** "part_count = ceil((until+1)/chunk_size) - floor(offset/chunk_size)" *)
Definition part_count (chunk_size from until : Z) : Z :=
  let offset := from - (from mod chunk_size) in
  Py.ceil_div (until + 1) chunk_size - Py.floor_div offset chunk_size.

(** The byte length of the trimmed concatenation of [part_count] chunks. *)
Definition trimmed_length (chunk_size first_cut last_cut part_count : Z) : Z :=
  (part_count - 1) * chunk_size + last_cut - first_cut.

(** "a plain non-negative integer literal": one or more decimal digits. *)
Fixpoint all_digits (s : string) : bool :=
  match s with
  | EmptyString => true
  | String c s' =>
      match Py.digit_value c with
      | Some _ => all_digits s'
      | None => false
      end
  end.

Definition plain_literal (s : string) : bool :=
  (Py.truthy s && all_digits s)%bool.

(** A character that can occur in a literal [int()] accepts: a digit, a
    sign, an underscore or white space.  A value with any other
    character is "non-numeric". *)
Definition numeric_char (c : ascii) : bool :=
  (Py.is_space c || Ascii.eqb c "+" || Ascii.eqb c "-" || Ascii.eqb c "_"
   || match Py.digit_value c with Some _ => true | None => false end)%bool.

(** "client-side transient errors (peer reset, malformed status line,
    attribute error on a dropped connection)" *)
Definition transient (e : Py.exn) : Prop :=
  match e with
  | Py.AttributeError _ | Py.BadStatusLine _ | Py.ConnectionResetError _ => True
  | _ => False
  end.

(** "any other exception" *)
Definition unexpected (e : Py.exn) : Prop :=
  match e with
  | Py.InvalidHash _ | Py.FIleNotFound _ | Py.AttributeError _
  | Py.BadStatusLine _ | Py.ConnectionResetError _ => False
  | _ => True
  end.

(** The error table of the three routes: what the handler [h] must be
    when the operation it wraps raised [e]. *)
Definition error_mapping (e : Py.exn) (h : HandlerResult) : Prop :=
  (forall m, e = Py.InvalidHash m -> h = HTTPForbidden m)
  /\ (forall m, e = Py.FIleNotFound m -> h = HTTPNotFound m)
  /\ (transient e -> h = ReturnNone)
  /\ (unexpected e -> h = HTTPInternalServerError (Py.str_exn e)).

End Spec.

(** The text before the first [-] of a [Range] value, once [bytes=] is
    removed: the from part. *)
Definition from_part (h : string) : string :=
  match Py.split "-" (Py.replace "bytes=" EmptyString h) with
  | inr (f :: _) => f
  | _ => EmptyString
  end.

(** The text between the first and the second [-] of a [Range] value, once
    [bytes=] is removed: the until part. *)
Definition until_part (h : string) : string :=
  match Py.split "-" (Py.replace "bytes=" EmptyString h) with
  | inr (_ :: u :: _) => u
  | _ => EmptyString
  end.

(** [headers[name]] of a response. *)
Fixpoint header_get (hs : list (string * string)) (name : string) : option string :=
  match hs with
  | [] => None
  | (k, v) :: hs' => if String.eqb k name then Some v else header_get hs' name
  end.

(** The plan a streamed response carries. *)
Definition plan_of (r : Response) : option (Z * Z * Z * Z) :=
  match body r with
  | BodyStream g =>
      Some (yf_offset g, yf_first_part_cut g, yf_last_part_cut g, yf_part_count g)
  | BodyText _ => None
  end.

(** ** A small deployment to run the routes on *)

Module Demo.

(** Three clients; the second and third are equally idle. *)
Definition loads : list (Z * Z) := [(0, 3); (1, 1); (2, 1)].
Definition clients : gmap Z Client :=
  {[ 0 := 10%nat; 1 := 11%nat; 2 := 12%nat ]}.
Definition w0 : World :=
  {| work_loads := loads; multi_clients := clients;
     class_cache := ∅; constructed := [] |}.

(** A resolver that knows one object of [size] bytes, and one that
    rejects every hash. *)
Definition resolver (size : Z) (_ : ByteStreamer) (_ : string)
    (_ : gmap Z Client) : Py.M FileId :=
  Py.ret {| file_size := size; mime_type := Some "video/mp4" |}.
Definition rejecting (_ : ByteStreamer) (_ : string) (_ : gmap Z Client)
  : Py.M FileId :=
  Py.raise (Py.InvalidHash "Invalid hash").
(** A resolver whose connection is reset by the peer. *)
Definition resetting (_ : ByteStreamer) (_ : string) (_ : gmap Z Client)
  : Py.M FileId :=
  Py.raise (Py.ConnectionResetError "Connection reset by peer").
Definition get_name (_ : FileId) : string := "clip.mp4".
Definition guess_type (_ : string) : option string := Some "video/mp4".
Definition render_page (_ : string) : Py.M string := Py.ret "<html></html>".

Definition with_range (value : string) : Request :=
  {| headers := {[ "Range" := value ]}; match_info_path := "abc123" |}.
Definition without_range : Request :=
  {| headers := ∅; match_info_path := "abc123" |}.

Definition stream (size : Z) (request : Request) : Py.M Response :=
  fst (media_streamer (resolver size) get_name guess_type
                      w0 request (match_info_path request) false).

Definition download (size : Z) (request : Request) : HandlerResult :=
  fst (download_handler (resolver size) get_name guess_type w0 request).

(** Two requests arrive before either has run; each then runs up to its
    [await]. *)
Definition two_first_lookups : list Event :=
  [ Arrive without_range "abc123" false; Arrive without_range "abc123" true;
    Resume 1%nat; Resume 0%nat ].

(** A process whose load table is empty, one whose only index has no
    client, and one whose clients are all idle. *)
Definition no_loads : World :=
  {| work_loads := []; multi_clients := clients;
     class_cache := ∅; constructed := [] |}.
Definition no_client : World :=
  {| work_loads := [(7, 0)]; multi_clients := clients;
     class_cache := ∅; constructed := [] |}.
Definition idle : World :=
  {| work_loads := [(0, 0); (1, 0); (2, 0)]; multi_clients := clients;
     class_cache := ∅; constructed := [] |}.

Definition file_100 : FileId :=
  {| file_size := 100; mime_type := Some "video/mp4" |}.

(** Two requests, each run to its [await] before either is finished. *)
Definition two_served : list Event :=
  [ Arrive (with_range "bytes=0-9") "abc123" false;
    Arrive without_range "abc123" true;
    Resume 1%nat; Resume 0%nat; Resume 0%nat; Resume 1%nat ].

End Demo.

(** ** Decimal digits *)

(** The value [int_scan] has read after the digits of [d], from [acc]. *)
Fixpoint uint_value (d : Decimal.uint) (acc : Z) : Z :=
  match d with
  | Decimal.Nil => acc
  | Decimal.D0 d' => uint_value d' (10 * acc + 0)
  | Decimal.D1 d' => uint_value d' (10 * acc + 1)
  | Decimal.D2 d' => uint_value d' (10 * acc + 2)
  | Decimal.D3 d' => uint_value d' (10 * acc + 3)
  | Decimal.D4 d' => uint_value d' (10 * acc + 4)
  | Decimal.D5 d' => uint_value d' (10 * acc + 5)
  | Decimal.D6 d' => uint_value d' (10 * acc + 6)
  | Decimal.D7 d' => uint_value d' (10 * acc + 7)
  | Decimal.D8 d' => uint_value d' (10 * acc + 8)
  | Decimal.D9 d' => uint_value d' (10 * acc + 9)
  end.

(** ** The /status route (lines 19-35) *)

(** The dict handed to [web.json_response]; [loads] is a dict in insertion
    order. *)
Record StatusReport : Type := {
  server_status : string;
  uptime : string;
  telegram_bot : string;
  connected_bots : Z;
  loads : list (string * Z);
  version : string
}.

(** The label of the [c]-th entry of [loads], counted from 0. *)
Definition bot_label (c : nat) : string := "bot" ++ Py.str (Z.of_nat c + 1).

(** The [loads] entry: the items of [work_loads] by descending load,
    relabelled by rank. *)
Definition status_loads (work_loads : list (Z * Z)) : list (string * Z) :=
  Py.dict_of
    (imap (fun c item => (bot_label c, snd item))
          (Py.sorted_desc snd work_loads)).

Section Status.

(** What the module imports: [utils.get_readable_time(time.time() -
    StartTime)] at the time of the request, [StreamBot.username] and
    [__version__]. *)
Variable readable_time : string.
Variable username : string.
Variable version_ : string.

Definition root_route_handler (w : World) : StatusReport :=
  {| server_status := "running";
     uptime := readable_time;
     telegram_bot := "@" ++ username;
     connected_bots := Z.of_nat (size (multi_clients w));
     loads := status_loads (work_loads w);
     version := version_ |}.

End Status.

(** ** Facts about the Python primitives *)

Lemma ceil_div_exact (a b : Z) :
  0 < b -> a mod b = 0 -> Py.ceil_div a b = a / b.
Proof.
  intros Hb Hm. unfold Py.ceil_div.
  apply Z.mod_divide in Hm; [|lia]. destruct Hm as [q ->].
  replace (- (q * b)) with ((- q) * b) by lia.
  rewrite !Z.div_mul by lia. lia.
Qed.

Lemma ceil_div_inexact (a b : Z) :
  0 < b -> a mod b <> 0 -> Py.ceil_div a b = a / b + 1.
Proof.
  intros Hb Hm. unfold Py.ceil_div.
  pose proof (Z.div_mod a b ltac:(lia)) as Ha.
  pose proof (Z.mod_pos_bound a b Hb) as Hr.
  symmetry. apply Z.opp_inj. rewrite Z.opp_involutive.
  apply (Z.div_unique (- a) b (- (a / b + 1)) (b - a mod b)); lia.
Qed.

(** [int()] rejects the empty string, the from part of the suffix form. *)
Lemma int_rejects_empty : Py.int_accepts EmptyString = false.
Proof. reflexivity. Qed.

(** A character that is no digit, sign, underscore or white space stops the
    scan in every state: [int()] rejects a value that has one. *)
Lemma int_scan_foreign_char (c : ascii) (s : string) :
  Spec.numeric_char c = false ->
  In c (list_ascii_of_string s) ->
  forall st neg acc digits n, Py.int_scan st neg acc digits s <> Py.Parsed n.
Proof.
  intros Hc. unfold Spec.numeric_char in Hc.
  apply Bool.orb_false_iff in Hc as [Hc Hd].
  apply Bool.orb_false_iff in Hc as [Hc Hu].
  apply Bool.orb_false_iff in Hc as [Hc Hm].
  apply Bool.orb_false_iff in Hc as [Hs Hp].
  assert (Hdv : Py.digit_value c = None)
    by (destruct (Py.digit_value c); [discriminate|reflexivity]).
  induction s as [|a s IH]; intros Hin st neg acc digits n; [destruct Hin|].
  destruct Hin as [->|Hin].
  - destruct st; cbn [Py.int_scan]; rewrite ?Hs, ?Hp, ?Hm, ?Hu, ?Hdv;
      try discriminate.
    destruct (Py.int_max_str_digits <? digits)%nat; discriminate.
  - specialize (IH Hin).
    destruct st; cbn [Py.int_scan];
      repeat match goal with
             | |- context [if ?b then _ else _] => destruct b
             | |- context [match Py.digit_value ?x with _ => _ end] =>
                 destruct (Py.digit_value x)
             end; solve [apply IH | discriminate].
Qed.

Lemma int_rejects_non_numeric (c : ascii) (s : string) :
  Spec.numeric_char c = false ->
  In c (list_ascii_of_string s) ->
  Py.int_accepts s = false.
Proof.
  intros Hc Hin. unfold Py.int_accepts.
  pose proof (int_scan_foreign_char c s Hc Hin Py.Leading false 0 0%nat) as H.
  destruct (Py.int_scan _ _ _ _ s); [now contradiction (H n)|reflexivity..].
Qed.

(** A run of digits within the digit limit is read to its end. *)
Lemma int_scan_digits (s : string) :
  Spec.all_digits s = true ->
  forall neg acc digits,
    (digits + String.length s <= Py.int_max_str_digits)%nat ->
    exists n, Py.int_scan Py.Digits neg acc digits s = Py.Parsed n.
Proof.
  induction s as [|a s IH]; intros Hs neg acc digits Hlen.
  - cbn [Py.int_scan String.length] in *.
    destruct (Nat.ltb_spec Py.int_max_str_digits digits); [lia|].
    eexists; reflexivity.
  - cbn [Spec.all_digits Py.int_scan String.length] in *.
    destruct (Py.digit_value a); [|discriminate]. apply IH; [exact Hs|lia].
Qed.

(** [int()] accepts every plain literal of at most 4300 digits; it accepts
    more, as [int_signed] and [int_padded] show. *)
Lemma int_accepts_plain (s : string) :
  Spec.plain_literal s = true ->
  (String.length s <= Py.int_max_str_digits)%nat ->
  Py.int_accepts s = true.
Proof.
  unfold Spec.plain_literal, Py.int_accepts.
  destruct s as [|a s]; [discriminate|]. cbn [Py.truthy andb Spec.all_digits].
  destruct (Py.digit_value a) as [d|] eqn:Hd; [|discriminate]. intros Hs Hlen.
  cbn [Py.int_scan String.length] in *.
  assert (Hsp : Py.is_space a = false).
  { unfold Py.digit_value in Hd. unfold Py.is_space.
    destruct (48 <=? nat_of_ascii a)%nat eqn:H1; [|discriminate].
    destruct (nat_of_ascii a <=? 57)%nat eqn:H2; [|discriminate].
    apply Nat.leb_le in H1, H2.
    repeat match goal with
           | |- context [(?x <=? ?y)%nat] => destruct (Nat.leb_spec x y)
           | |- context [(?x =? ?y)%nat] => destruct (Nat.eqb_spec x y)
           end; simpl; try reflexivity; lia. }
  assert (Hplus : Ascii.eqb a "+" = false /\ Ascii.eqb a "-" = false).
  { split; apply Ascii.eqb_neq; intros ->; vm_compute in Hd; discriminate. }
  destruct Hplus as [-> ->]. rewrite Hsp, Hd.
  destruct (int_scan_digits s Hs false d 1%nat ltac:(lia)) as [n ->].
  reflexivity.
Qed.

(** Beyond the digit limit [int()] raises, even on a plain literal. *)
Example int_4301_digits :
  Py.int_accepts (Py.str Py.int_limit) = false
  /\ Py.int_accepts (Py.str (Py.int_limit - 1)) = true.
Proof. vm_compute. split; reflexivity. Qed.

(** What [int()] takes for white space. *)
Example int_separators :
  Py.int_accepts (String (ascii_of_nat 28) "5") = false
  /\ Py.int (String (ascii_of_nat 160) "5") = inr 5.
Proof. split; reflexivity. Qed.

Example int_signed : Py.int "+5" = inr 5.
Proof. reflexivity. Qed.

Example int_padded : Py.int " 1_000 " = inr 1000.
Proof. reflexivity. Qed.

Example int_double_underscore : Py.int_accepts "1__0" = false.
Proof. reflexivity. Qed.

Example replace_prefix :
  Py.replace "bytes=" EmptyString "bytes=500000-1500000" = "500000-1500000".
Proof. reflexivity. Qed.

Example split_suffix_form : Py.split "-" "-500" = inr [EmptyString; "500"].
Proof. reflexivity. Qed.

Example split_open_ended : Py.split "-" "5-" = inr ["5"; EmptyString].
Proof. reflexivity. Qed.

Example str_values :
  Py.str 0 = "0" /\ Py.str (-15) = "-15" /\ Py.str 1000001 = "1000001".
Proof. repeat split; reflexivity. Qed.

Lemma chunk_size_pos : 0 < chunk_size.
Proof. reflexivity. Qed.

(** ** The chunk plan (lines 160-168) *)

Section Plan.

Variables cs from_bytes until_bytes : Z.
Hypothesis cs_pos : 0 < cs.

Let plan := chunk_plan cs from_bytes until_bytes.

(** Three of the four formulas are the specification's, for every input. *)
Lemma plan_offset : offset plan = from_bytes - from_bytes mod cs.
Proof. reflexivity. Qed.

Lemma plan_first_part_cut : first_part_cut plan = from_bytes - offset plan.
Proof. reflexivity. Qed.

Lemma plan_last_part_cut : last_part_cut plan = until_bytes mod cs + 1.
Proof. reflexivity. Qed.

(** The fourth agrees with the specification's exactly when the last
    requested byte is not the first byte of a chunk; there it is one
    short. *)
Lemma plan_part_count_off_boundary :
  until_bytes mod cs <> 0 ->
  part_count plan = Spec.part_count cs from_bytes until_bytes.
Proof.
  intros Hm. unfold plan, chunk_plan, Spec.part_count; simpl. f_equal.
  rewrite (ceil_div_inexact until_bytes cs cs_pos Hm).
  unfold Py.ceil_div. Z.div_mod_to_equations. nia.
Qed.

Lemma plan_part_count_on_boundary :
  until_bytes mod cs = 0 ->
  part_count plan = Spec.part_count cs from_bytes until_bytes - 1.
Proof.
  intros Hm. unfold plan, chunk_plan, Spec.part_count; simpl.
  rewrite (ceil_div_exact until_bytes cs cs_pos Hm).
  unfold Py.ceil_div, Py.floor_div.
  enough (- (- (until_bytes + 1) / cs) = until_bytes / cs + 1) by lia.
  Z.div_mod_to_equations. nia.
Qed.

(** The bytes the plan delivers against the bytes announced. *)
Lemma plan_length_off_boundary :
  until_bytes mod cs <> 0 ->
  Spec.trimmed_length cs (first_part_cut plan) (last_part_cut plan)
                      (part_count plan)
  = req_length from_bytes until_bytes.
Proof.
  intros Hm. unfold plan, chunk_plan, Spec.trimmed_length, req_length; simpl.
  rewrite (ceil_div_inexact until_bytes cs cs_pos Hm).
  unfold Py.floor_div.
  pose proof (Z.div_mod until_bytes cs ltac:(lia)).
  pose proof (Z.div_mod from_bytes cs ltac:(lia)).
  replace (from_bytes - from_bytes mod cs) with (from_bytes / cs * cs) by lia.
  rewrite Z.div_mul by lia. nia.
Qed.

Lemma plan_length_on_boundary :
  until_bytes mod cs = 0 ->
  Spec.trimmed_length cs (first_part_cut plan) (last_part_cut plan)
                      (part_count plan)
  = req_length from_bytes until_bytes - cs.
Proof.
  intros Hm. unfold plan, chunk_plan, Spec.trimmed_length, req_length; simpl.
  rewrite (ceil_div_exact until_bytes cs cs_pos Hm).
  unfold Py.floor_div.
  pose proof (Z.div_mod until_bytes cs ltac:(lia)).
  pose proof (Z.div_mod from_bytes cs ltac:(lia)).
  replace (from_bytes - from_bytes mod cs) with (from_bytes / cs * cs) by lia.
  rewrite Z.div_mul by lia. nia.
Qed.

(** The bounds that hold for every request. *)
Lemma plan_bounds :
  offset plan mod cs = 0
  /\ offset plan <= from_bytes < offset plan + cs
  /\ 0 <= first_part_cut plan < cs
  /\ 1 <= last_part_cut plan <= cs.
Proof.
  unfold plan, chunk_plan; simpl.
  pose proof (Z.mod_pos_bound from_bytes cs cs_pos).
  pose proof (Z.mod_pos_bound until_bytes cs cs_pos).
  pose proof (Z.div_mod from_bytes cs ltac:(lia)).
  repeat split; try lia.
  replace (from_bytes - from_bytes mod cs) with (from_bytes / cs * cs) by lia.
  apply Z.mod_mul. lia.
Qed.

(** [part_count] is positive except for a one-byte request of the first
    byte of a chunk, where it is zero. *)
Lemma plan_part_count_sign :
  0 <= from_bytes <= until_bytes ->
  (until_bytes mod cs = 0 /\ from_bytes = until_bytes -> part_count plan = 0)
  /\ (~ (until_bytes mod cs = 0 /\ from_bytes = until_bytes) ->
      1 <= part_count plan).
Proof.
  intros Hr. unfold plan, chunk_plan; simpl. unfold Py.floor_div.
  pose proof (Z.div_mod until_bytes cs ltac:(lia)) as Hu.
  pose proof (Z.div_mod from_bytes cs ltac:(lia)) as Hf.
  pose proof (Z.mod_pos_bound from_bytes cs cs_pos).
  pose proof (Z.mod_pos_bound until_bytes cs cs_pos).
  replace (from_bytes - from_bytes mod cs) with (from_bytes / cs * cs) by lia.
  rewrite Z.div_mul by lia.
  assert (Hle : from_bytes / cs <= until_bytes / cs)
    by (apply Z.div_le_mono; lia).
  split.
  - intros [Hm ->]. rewrite (ceil_div_exact _ _ cs_pos Hm). lia.
  - intros Hn. destruct (Z.eq_dec (until_bytes mod cs) 0) as [Hm|Hm].
    + rewrite (ceil_div_exact _ _ cs_pos Hm).
      assert (from_bytes <> until_bytes) by tauto.
      assert (from_bytes / cs <> until_bytes / cs) by nia. lia.
    + rewrite (ceil_div_inexact _ _ cs_pos Hm). lia.
Qed.

End Plan.

(** ** [media_streamer]: validation, status and headers *)

Section RoutesCorrect.

Variable get_file_properties :
  ByteStreamer -> string -> gmap Z Client -> Py.M FileId.
Variable get_name : FileId -> string.
Variable guess_type : string -> option string.

(** The routes with their collaborators plugged in. *)
Let streamer := media_streamer get_file_properties get_name guess_type.
Let response_of := build_response get_name guess_type.
Let dl_route := download_handler get_file_properties get_name guess_type.
Let video_route :=
  video_stream_handler get_file_properties get_name guess_type.

Lemma range_not_satisfiable_iff (size from_bytes until_bytes : Z) :
  range_not_satisfiable size from_bytes until_bytes = true
  <-> (until_bytes > size \/ from_bytes < 0 \/ until_bytes < from_bytes).
Proof. unfold range_not_satisfiable. lia. Qed.

Lemma build_response_status request is_video index tg fid from_bytes until_bytes :
  status (response_of request is_video index tg fid from_bytes until_bytes)
  = if range_not_satisfiable (file_size fid) from_bytes until_bytes then 416
    else if range_requested request then 206 else 200.
Proof.
  unfold response_of, build_response.
  destruct (range_not_satisfiable _ _ _); reflexivity.
Qed.

(** Once a backend is chosen and the object resolved, [media_streamer]
    is [parse_range] followed by [build_response]. *)
Lemma media_streamer_resolved w request db_id is_video index tg w' fid :
  media_streamer_connect w = inr (index, tg, w') ->
  get_file_properties tg db_id (multi_clients w') = inr fid ->
  fst (streamer w request db_id is_video)
  = (range <- parse_range request (file_size fid) ;;
     Py.ret (response_of request is_video index tg fid
                            (fst range) (snd range))).
Proof.
  intros Hc Hr. unfold streamer, media_streamer.
  rewrite Hc. simpl. unfold media_streamer_respond. rewrite Hr. reflexivity.
Qed.

(** A response of [media_streamer] comes from [build_response]. *)
Lemma media_streamer_returns w request db_id is_video r :
  fst (streamer w request db_id is_video) = inr r ->
  exists index tg fid from_bytes until_bytes,
    parse_range request (file_size fid) = inr (from_bytes, until_bytes)
    /\ r = response_of request is_video index tg fid from_bytes until_bytes.
Proof.
  unfold streamer, media_streamer.
  destruct (media_streamer_connect w) as [e|[[index tg] w']]; [discriminate|].
  simpl. unfold media_streamer_respond.
  destruct (get_file_properties tg db_id _) as [e|fid]; [discriminate|]. simpl.
  destruct (parse_range request (file_size fid)) as [e|[f u]] eqn:Hp;
    [discriminate|].
  simpl. intros [= <-]. exists index, tg, fid, f, u. split; [exact Hp|reflexivity].
Qed.

(** A response of [media_streamer] is built from the object the resolver
    answered with for the selected session. *)
Lemma media_streamer_returns_resolved w request db_id is_video r :
  fst (streamer w request db_id is_video) = inr r ->
  exists index tg w' fid from_bytes until_bytes,
    media_streamer_connect w = inr (index, tg, w')
    /\ get_file_properties tg db_id (multi_clients w') = inr fid
    /\ parse_range request (file_size fid) = inr (from_bytes, until_bytes)
    /\ r = response_of request is_video index tg fid from_bytes until_bytes.
Proof.
  unfold streamer, media_streamer.
  destruct (media_streamer_connect w) as [e|[[index tg] w']] eqn:Hc;
    [discriminate|].
  simpl. unfold media_streamer_respond.
  destruct (get_file_properties tg db_id _) as [e|fid] eqn:Hr;
    [discriminate|]. simpl.
  destruct (parse_range request (file_size fid)) as [e|[f u]] eqn:Hp;
    [discriminate|].
  simpl. intros [= <-]. exists index, tg, w', fid, f, u. repeat split; assumption.
Qed.

(** C1 (as amended): for a parsed range [(from, until)] of an object of
    [size] bytes, [media_streamer] answers 416 whenever [until > size],
    [from < 0] or [until < from], and for a range that starts inside the
    object ([from < size]) only then; that answer has status 416, the
    header [Content-Range: bytes */<size>] and the body
    [416: Range not satisfiable].  Nothing is said of the range
    [from = until = size]. *)
Theorem range_check_416 w request db_id is_video index tg w' fid
    from_bytes until_bytes :
  media_streamer_connect w = inr (index, tg, w') ->
  get_file_properties tg db_id (multi_clients w') = inr fid ->
  parse_range request (file_size fid) = inr (from_bytes, until_bytes) ->
  exists r,
    fst (streamer w request db_id is_video) = inr r
    /\ (until_bytes > file_size fid \/ from_bytes < 0
        \/ until_bytes < from_bytes ->
        status r = 416)
    /\ (from_bytes < file_size fid ->
        status r = 416 ->
        until_bytes > file_size fid \/ from_bytes < 0
        \/ until_bytes < from_bytes)
    /\ (status r = 416 ->
        r = {| status := 416;
               body := BodyText "416: Range not satisfiable";
               resp_headers :=
                 [("Content-Range",
                   ("bytes */" ++ Py.str (file_size fid))%string)];
               content_type := None |}).
Proof.
  intros Hc Hr Hp.
  rewrite (media_streamer_resolved _ _ _ _ _ _ _ _ Hc Hr), Hp. simpl.
  eexists; split; [reflexivity|].
  rewrite build_response_status, <- range_not_satisfiable_iff.
  unfold response_of, build_response.
  destruct (range_not_satisfiable _ _ _) eqn:Hn.
  - split; [reflexivity|]. split; [reflexivity|]. reflexivity.
  - split; [discriminate|].
    split; intros; destruct (range_requested request); discriminate.
Qed.

Lemma parse_range_no_header request size :
  headers request !! "Range" = None ->
  parse_range request size = inr (0, size - 1).
Proof.
  intros Hh. unfold parse_range. rewrite Hh. simpl.
  unfold Py.or_int. simpl. reflexivity.
Qed.

Lemma parse_range_empty_header request size :
  headers request !! "Range" = Some EmptyString ->
  exists e, parse_range request size = inl e.
Proof.
  intros Hh. unfold parse_range. rewrite Hh. simpl. eexists. reflexivity.
Qed.

(** C6: a response of [media_streamer] other than the 416 one has status
    206 exactly when the request carried a [Range] header and 200
    otherwise; without the header the range is [0 .. size-1], the
    [Content-Range] is that of the whole object and the
    [Content-Length] is [size], the size of the object the resolver
    answered with. *)
Theorem status_200_or_206 w request db_id is_video r :
  fst (streamer w request db_id is_video) = inr r ->
  status r <> 416 ->
  exists index tg w' fid,
    media_streamer_connect w = inr (index, tg, w')
    /\ get_file_properties tg db_id (multi_clients w') = inr fid
    /\ (status r = 206 <-> is_Some (headers request !! "Range"))
    /\ (status r = 200 <-> headers request !! "Range" = None)
    /\ (headers request !! "Range" = None ->
        parse_range request (file_size fid) = inr (0, file_size fid - 1)
        /\ header_get (resp_headers r) "Content-Range"
           = Some ("bytes 0-" ++ Py.str (file_size fid - 1)
                     ++ "/" ++ Py.str (file_size fid))%string
        /\ header_get (resp_headers r) "Content-Length"
           = Some (Py.str (file_size fid))
        /\ exists g, body r = BodyStream g /\ yf_file_id g = fid).
Proof.
  intros Hm Hs.
  destruct (media_streamer_returns_resolved _ _ _ _ _ Hm)
    as (index & tg & w' & fid & f & u & Hc & Hr & Hp & ->).
  exists index, tg, w', fid. split; [exact Hc|]. split; [exact Hr|].
  rewrite build_response_status in Hs |- *.
  unfold response_of, build_response.
  destruct (range_not_satisfiable (file_size fid) f u) eqn:Hn; [congruence|].
  unfold range_requested.
  destruct (headers request !! "Range") as [h|] eqn:Hh.
  - destruct h as [|c h].
    + destruct (parse_range_empty_header request (file_size fid) Hh) as [e He].
      congruence.
    + simpl. repeat split; try discriminate; eauto.
  - split; [split; [discriminate|intros [? ?]; discriminate]|].
    split; [split; reflexivity|]. intros _.
    rewrite (parse_range_no_header _ _ Hh) in Hp.
    injection Hp as <- <-.
    split; [apply parse_range_no_header, Hh|].
    unfold clamp_until, req_length.
    rewrite Z.min_id.
    replace (file_size fid - 1 - 0 + 1) with (file_size fid) by lia.
    destruct is_video;
      (split; [reflexivity|]; split; [reflexivity|];
       eexists; split; reflexivity).
Qed.

(** C4 (as amended): on an object of 10_000_000 bytes the request
    [bytes=500000-1500000] is planned as [offset = 0],
    [first_cut = 500000], [last_cut = 451425], [part_count = 2], in
    chunks of 1_048_576 bytes, and announced with a [Content-Length] of
    1000001. *)
Theorem example_plan w request db_id is_video index tg w' fid :
  media_streamer_connect w = inr (index, tg, w') ->
  get_file_properties tg db_id (multi_clients w') = inr fid ->
  file_size fid = 10000000 ->
  headers request !! "Range" = Some "bytes=500000-1500000" ->
  exists r,
    fst (streamer w request db_id is_video) = inr r
    /\ plan_of r = Some (0, 500000, 451425, 2)
    /\ chunk_size = 1048576
    /\ header_get (resp_headers r) "Content-Length" = Some "1000001".
Proof.
  intros Hc Hr Hsz Hh.
  assert (Hp : parse_range request (file_size fid) = inr (500000, 1500000)).
  { unfold parse_range. rewrite Hh. reflexivity. }
  rewrite (media_streamer_resolved _ _ _ _ _ _ _ _ Hc Hr), Hp. simpl.
  eexists; split; [reflexivity|].
  unfold response_of, build_response. rewrite Hsz.
  destruct is_video; repeat split; reflexivity.
Qed.

(** ** Range values [int()] rejects *)

Lemma parse_range_rejects request size h :
  headers request !! "Range" = Some h ->
  Py.int_accepts (from_part h) = false ->
  exists msg, parse_range request size = inl (Py.ValueError msg).
Proof.
  intros Hh Hrej. unfold parse_range. rewrite Hh.
  destruct h as [|c h]; [eexists; reflexivity|].
  cbn [Py.truthy]. unfold from_part in Hrej.
  destruct (Py.split "-" _) as [e|parts] eqn:Hs; [discriminate|].
  cbn [Py.bind].
  destruct parts as [|f [|u [|x parts]]]; try (eexists; reflexivity).
  unfold Py.int at 1. unfold Py.int_accepts in Hrej.
  destruct (Py.int_scan Py.Leading false 0 0 f);
    [discriminate|eexists; reflexivity..].
Qed.

(** C10 (as amended): when a backend is selected and the object resolves,
    a request whose [Range] header is present and whose from part is not
    a literal [int()] accepts makes [media_streamer] raise [ValueError]
    before the range is validated, and both streaming routes answer
    500. *)
Theorem unparsable_from_is_500 w request h index tg w' fid :
  headers request !! "Range" = Some h ->
  media_streamer_connect w = inr (index, tg, w') ->
  get_file_properties tg (match_info_path request) (multi_clients w') = inr fid ->
  Py.int_accepts (from_part h) = false ->
  exists msg,
    (forall is_video,
        fst (streamer w request (match_info_path request) is_video)
        = inl (Py.ValueError msg))
    /\ fst (dl_route w request) = HTTPInternalServerError msg
    /\ fst (video_route w request) = HTTPInternalServerError msg
    /\ http_status (fst (dl_route w request)) = Some 500.
Proof.
  intros Hh Hc Hr Hrej.
  destruct (parse_range_rejects request (file_size fid) h Hh Hrej) as [msg Hp].
  exists msg.
  assert (Hs : forall is_video,
             fst (streamer w request (match_info_path request) is_video)
             = inl (Py.ValueError msg)).
  { intros v. rewrite (media_streamer_resolved _ _ _ _ _ _ _ _ Hc Hr), Hp.
    reflexivity. }
  split; [exact Hs|].
  unfold dl_route, video_route, download_handler, video_stream_handler.
  pose proof (Hs false) as Hf. pose proof (Hs true) as Ht.
  unfold streamer in Hf, Ht.
  destruct (media_streamer _ _ _ _ _ _ false) as [o1 w1].
  destruct (media_streamer _ _ _ _ _ _ true) as [o2 w2].
  simpl in *. subst. repeat split; reflexivity.
Qed.

End RoutesCorrect.

Section ErrorTable.

Variable get_file_properties :
  ByteStreamer -> string -> gmap Z Client -> Py.M FileId.
Variable get_name : FileId -> string.
Variable guess_type : string -> option string.
Variable render_page : string -> Py.M string.

Let streamer := media_streamer get_file_properties get_name guess_type.
Let dl_route := download_handler get_file_properties get_name guess_type.
Let video_route :=
  video_stream_handler get_file_properties get_name guess_type.
Let watch_route := stream_handler render_page.

(** ** The error table of the routes *)

Lemma handle_error_mapping e : Spec.error_mapping e (handle (inl e)).
Proof.
  unfold Spec.error_mapping.
  repeat split; intros; subst; try reflexivity;
    destruct e; simpl in *; try reflexivity; try contradiction.
Qed.

(** C7 (as amended): on the /dl, /video and /watch routes an
    [InvalidHash] from the wrapped operation makes the handler raise
    [HTTPForbidden] (403) and a [FIleNotFound] [HTTPNotFound] (404), each
    with the message of the exception; on an [AttributeError],
    [BadStatusLine] or [ConnectionResetError] the handler returns [None]
    and builds no response; any other exception makes it raise
    [HTTPInternalServerError] (500) with [str(e)] as its only text. *)
Theorem error_table w request e :
  (fst (streamer w request (match_info_path request) false) = inl e ->
   Spec.error_mapping e (fst (dl_route w request)))
  /\ (fst (streamer w request (match_info_path request) true) = inl e ->
      Spec.error_mapping e (fst (video_route w request)))
  /\ (render_page (match_info_path request) = inl e ->
      Spec.error_mapping e (fst (watch_route w request)))
  /\ http_status (HTTPForbidden (Py.str_exn e)) = Some 403
  /\ http_status (HTTPNotFound (Py.str_exn e)) = Some 404
  /\ http_status (HTTPInternalServerError (Py.str_exn e)) = Some 500
  /\ http_text (HTTPInternalServerError (Py.str_exn e)) = Some (Py.str_exn e).
Proof.
  split; [|split; [|split; [|repeat split]]].
  - unfold dl_route, download_handler, streamer.
    destruct (media_streamer _ _ _ _ _ _ _) as [o w']. simpl.
    intros ->. apply handle_error_mapping.
  - unfold video_route, video_stream_handler, streamer.
    destruct (media_streamer _ _ _ _ _ _ _) as [o w']. simpl.
    intros ->. apply handle_error_mapping.
  - unfold watch_route, stream_handler. simpl.
    intros ->. apply handle_error_mapping.
Qed.

End ErrorTable.


(** ** Backend selection (line 128) *)

Local Close Scope string_scope.

Section Selection.

Context {K : Type} (key : K -> option Z).

(** One pass of [min]: [best] is the earliest element of least key among
    those already read, [pre] the elements before it and [mid] the ones
    read after it. *)
Lemma min_loop_first (rest pre mid : list K) (best : K) (kbest : Z) :
  key best = Some kbest ->
  (forall x, x ∈ pre -> exists vx, key x = Some vx /\ kbest < vx) ->
  (forall x, x ∈ mid -> exists vx, key x = Some vx /\ kbest <= vx) ->
  (forall x, x ∈ rest -> is_Some (key x)) ->
  exists k v pre' post',
    Py.min_loop key best kbest rest = inr k
    /\ pre ++ best :: mid ++ rest = pre' ++ k :: post'
    /\ key k = Some v
    /\ (forall x, x ∈ pre' -> exists vx, key x = Some vx /\ v < vx)
    /\ (forall x, x ∈ post' -> exists vx, key x = Some vx /\ v <= vx).
Proof.
  revert pre mid best kbest.
  induction rest as [|x rest IH]; intros pre mid best kbest Hb Hpre Hmid Hrest.
  - exists best, kbest, pre, mid. rewrite app_nil_r. simpl. auto.
  - destruct (Hrest x) as [kx Hx]; [left|].
    cbn [Py.min_loop]. rewrite Hx.
    destruct (Z.ltb_spec kx kbest) as [Hlt|Hge].
    + destruct (IH (pre ++ best :: mid) [] x kx Hx) as (k & v & p & q & H).
      * intros y [Hy|Hy]%elem_of_app.
        { destruct (Hpre y Hy) as (vy & ? & ?). exists vy. split; [done|lia]. }
        apply elem_of_cons in Hy as [->|Hy].
        { exists kbest. split; [done|lia]. }
        destruct (Hmid y Hy) as (vy & ? & ?). exists vy. split; [done|lia].
      * intros y Hy. inversion Hy.
      * intros y Hy. apply Hrest. by right.
      * exists k, v, p, q. destruct H as (-> & Heq & H). split; [done|].
        split; [|exact H]. rewrite <- Heq. by rewrite <- !app_assoc.
    + destruct (IH pre (mid ++ [x]) best kbest Hb Hpre) as (k & v & p & q & H).
      * intros y [Hy|Hy]%elem_of_app; [by apply Hmid|].
        apply list_elem_of_singleton in Hy as ->. exists kx. split; [done|lia].
      * intros y Hy. apply Hrest. by right.
      * exists k, v, p, q. destruct H as (-> & Heq & H). split; [done|].
        split; [|exact H]. rewrite <- Heq. by rewrite <- !app_assoc.
Qed.

Lemma min_by_first (xs : list K) :
  xs <> [] ->
  (forall x, x ∈ xs -> is_Some (key x)) ->
  exists k v pre post,
    Py.min_by key xs = inr k
    /\ xs = pre ++ k :: post
    /\ key k = Some v
    /\ (forall x, x ∈ pre -> exists vx, key x = Some vx /\ v < vx)
    /\ (forall x, x ∈ post -> exists vx, key x = Some vx /\ v <= vx).
Proof.
  destruct xs as [|x rest]; [done|]. intros _ Hall.
  destruct (Hall x) as [kx Hx]; [left|].
  unfold Py.min_by. rewrite Hx.
  apply (min_loop_first rest [] [] x kx Hx).
  - intros y Hy. inversion Hy.
  - intros y Hy. inversion Hy.
  - intros y Hy. apply Hall. by right.
Qed.

End Selection.

Lemma dict_get_key (d : list (Z * Z)) (k : Z) :
  k ∈ dict_keys d <-> is_Some (dict_get d k).
Proof.
  induction d as [|[k' v] d IH]; simpl.
  - split; [intros H; inversion H|intros [? ?]; discriminate].
  - unfold dict_keys in *. simpl. rewrite elem_of_cons.
    destruct (Z.eqb_spec k' k) as [->|Hne].
    + split; [eauto|by left].
    + rewrite <- IH. split; [intros [?|?]; [congruence|done]|by right].
Qed.

(** C8: on a non-empty load table the selection returns a backend whose
    load is the least of the table, and every backend before it in the
    table's order has a strictly greater load: among equally idle
    backends the first is taken. *)
Theorem select_least_loaded (w : World) :
  work_loads w <> [] ->
  exists k v pre post,
    select_index w = inr k
    /\ dict_keys (work_loads w) = pre ++ k :: post
    /\ dict_get (work_loads w) k = Some v
    /\ (forall k' v', dict_get (work_loads w) k' = Some v' -> v <= v')
    /\ (forall k' v', k' ∈ pre -> dict_get (work_loads w) k' = Some v' -> v < v').
Proof.
  intros Hne. unfold select_index.
  destruct (min_by_first (dict_get (work_loads w)) (dict_keys (work_loads w)))
    as (k & v & pre & post & Hsel & Hkeys & Hk & Hpre & Hpost).
  - unfold dict_keys. destruct (work_loads w); [done|discriminate].
  - intros x Hx. by apply dict_get_key.
  - exists k, v, pre, post. repeat split; try done.
    + intros k' v' Hk'.
      assert (Hin : k' ∈ dict_keys (work_loads w))
        by (apply dict_get_key; eauto).
      rewrite Hkeys in Hin.
      apply elem_of_app in Hin as [Hin|Hin].
      * destruct (Hpre k' Hin) as (vx & ? & ?). simplify_eq. lia.
      * apply elem_of_cons in Hin as [->|Hin]; [simplify_eq; lia|].
        destruct (Hpost k' Hin) as (vx & ? & ?). simplify_eq. lia.
    + intros k' v' Hin Hk'.
      destruct (Hpre k' Hin) as (vx & ? & ?). simplify_eq. lia.
Qed.

(** ** The session cache (lines 134-140) under concurrent requests *)

Lemma get_session_consistent (w w' : World) (c : Client) (b : ByteStreamer) :
  cache_consistent w ->
  get_session w c = (b, w') ->
  cache_consistent w'
  /\ b ∈ constructed w'
  /\ (forall b0, b0 ∈ constructed w -> b0 ∈ constructed w').
Proof.
  intros (I1 & I2 & I3). unfold get_session.
  destruct (class_cache w !! c) as [b0|] eqn:Hc; intros [= <- <-].
  - split; [exact (conj I1 (conj I2 I3))|].
    split; [by apply (I1 c)|done].
  - set (nb := new_ByteStreamer w c).
    assert (Hfresh : forall b0, b0 ∈ constructed w -> bs_client b0 <> c).
    { intros b0 Hb0 Heq. apply I2 in Hb0. congruence. }
    split; [|split]; simpl.
    + split; [|split]; simpl.
      * intros c0 b0 H. destruct (decide (c = c0)) as [<-|Hne].
        -- rewrite lookup_insert_eq in H. injection H as <-.
           split; [|done]. apply elem_of_app. right. by left.
        -- rewrite lookup_insert_ne in H by done.
           destruct (I1 c0 b0 H) as [Hin Hcl].
           split; [|done]. apply elem_of_app. by left.
      * intros b0 [Hb0|Hb0]%elem_of_app.
        -- rewrite lookup_insert_ne by (apply not_eq_sym; by apply Hfresh).
           by apply I2.
        -- apply list_elem_of_singleton in Hb0 as ->. apply lookup_insert_eq.
      * rewrite fmap_app. apply NoDup_app. split; [done|]. split.
        -- intros x (b0 & -> & Hb0)%list_elem_of_fmap Hx.
           apply list_elem_of_singleton in Hx. by apply (Hfresh b0).
        -- apply NoDup_singleton.
    + apply elem_of_app. right. by left.
    + intros b0 Hb0. apply elem_of_app. by left.
Qed.

Lemma connect_consistent (w w' : World) (index : Z) (b : ByteStreamer) :
  cache_consistent w ->
  media_streamer_connect w = inr (index, b, w') ->
  cache_consistent w'
  /\ b ∈ constructed w'
  /\ (forall b0, b0 ∈ constructed w -> b0 ∈ constructed w').
Proof.
  intros Hw. unfold media_streamer_connect.
  destruct (select_index w) as [e|i]; [discriminate|]. cbn [Py.bind].
  destruct (lookup_client w i) as [e|c]; [discriminate|]. cbn [Py.bind].
  destruct (get_session w c) as [b1 w1] eqn:Hg. intros [= <- <- <-].
  by apply (get_session_consistent w w1 c b1).
Qed.

Lemma built_once (l : list ByteStreamer) (c : Client) :
  NoDup (bs_client <$> l) ->
  (length (filter (fun b => bs_client b = c) l) <= 1)%nat.
Proof.
  induction l as [|b l IH]; [simpl; lia|].
  rewrite fmap_cons, NoDup_cons. intros [Hb Hl].
  rewrite filter_cons. destruct (decide (bs_client b = c)) as [<-|Hne].
  - assert (Hnone : filter (fun b0 => bs_client b0 = bs_client b) l = []).
    { destruct (filter _ l) as [|b0 l0] eqn:Hf; [done|].
      assert (Hin : b0 ∈ filter (fun b0 => bs_client b0 = bs_client b) l)
        by (rewrite Hf; left).
      apply list_elem_of_filter in Hin as [Heq Hin].
      exfalso. apply Hb. rewrite <- Heq. by apply list_elem_of_fmap_2. }
    rewrite Hnone. simpl. lia.
  - by apply IH.
Qed.

Section Cache.

Variable get_file_properties :
  ByteStreamer -> string -> gmap Z Client -> Py.M FileId.
Variable get_name : FileId -> string.
Variable guess_type : string -> option string.

Let step := step get_file_properties get_name guess_type.
Let run := run get_file_properties get_name guess_type.

Lemma boot_ok loads clients : system_ok (boot loads clients).
Proof.
  split.
  - split; [|split]; simpl.
    + intros c b H. rewrite lookup_empty in H. discriminate.
    + intros b Hb. inversion Hb.
    + constructor.
  - intros i t b Ht. simpl in Ht. rewrite lookup_nil in Ht. discriminate.
Qed.

Lemma step_ok s ev : system_ok s -> system_ok (step s ev).
Proof.
  intros [Hw Ht]. destruct ev as [request db_id is_video|i|loads]; simpl.
  - split; [exact Hw|]. intros i t b Hi Hh. simpl in *.
    apply lookup_app_Some in Hi as [Hi|[_ Hi]]; [by eapply Ht|].
    apply list_lookup_singleton_Some in Hi as [_ <-]. discriminate.
  - unfold resume.
    destruct (tasks s !! i) as [[request db_id is_video
                                |request db_id is_video index tg|tg o]|] eqn:Hi;
      [| |by split|by split].
    + destruct (media_streamer_connect (world s)) as [e|[[index tg] w']] eqn:Hc.
      * split; [exact Hw|]. intros j t b Hj Hh. simpl in *.
        apply list_lookup_insert_Some in Hj as [(_ & <- & _)|[_ Hj]];
          [discriminate|by eapply Ht].
      * destruct (connect_consistent _ _ _ _ Hw Hc) as (Hw' & Htg & Hmono).
        split; [exact Hw'|]. intros j t b Hj Hh. simpl in *.
        apply list_lookup_insert_Some in Hj as [(_ & <- & _)|[_ Hj]].
        -- simpl in Hh. by injection Hh as <-.
        -- apply Hmono. by eapply Ht.
    + split; [exact Hw|]. intros j t b Hj Hh. simpl in *.
      apply list_lookup_insert_Some in Hj as [(_ & <- & _)|[_ Hj]];
        [|by eapply Ht].
      simpl in Hh. injection Hh as <-. by eapply (Ht i _ tg Hi).
  - split; [exact Hw|]. exact Ht.
Qed.

Lemma run_ok evs s : system_ok s -> system_ok (run s evs).
Proof.
  revert s. induction evs as [|ev evs IH]; intros s Hs; [exact Hs|].
  apply IH. by apply step_ok.
Qed.

(** C9: however the event loop interleaves the requests it accepts, at
    most one [ByteStreamer] is ever built for a client, any two
    coroutines that looked up the same client hold the same object, and
    that object is the cached one. *)
Theorem session_built_once loads clients evs :
  let s := run (boot loads clients) evs in
  (forall c, built_for (world s) c <= 1)%nat
  /\ (forall i j ti tj bi bj,
         tasks s !! i = Some ti -> tasks s !! j = Some tj ->
         held ti = Some bi -> held tj = Some bj ->
         bs_client bi = bs_client bj -> bi = bj)
  /\ (forall i t b,
         tasks s !! i = Some t -> held t = Some b ->
         class_cache (world s) !! bs_client b = Some b).
Proof.
  intros s.
  destruct (run_ok evs _ (boot_ok loads clients)) as [(I1 & I2 & I3) Ht].
  fold s in I1, I2, I3, Ht.
  assert (Hheld : forall i t b, tasks s !! i = Some t -> held t = Some b ->
                                class_cache (world s) !! bs_client b = Some b).
  { intros i t b Hi Hh. apply I2. by eapply Ht. }
  split; [|split; [|exact Hheld]].
  - intros c. by apply built_once.
  - intros i j ti tj bi bj Hi Hj Hbi Hbj Heq.
    pose proof (Hheld i ti bi Hi Hbi) as H1.
    pose proof (Hheld j tj bj Hj Hbj) as H2.
    rewrite Heq in H1. congruence.
Qed.

End Cache.

(** ** The routes on the small deployment *)

Local Open Scope string_scope.
Local Open Scope Z_scope.

(** The two range examples of the specification. *)
Example whole_object_by_range :
  exists r,
    Demo.stream 100 (Demo.with_range "bytes=0-99") = inr r
    /\ status r = 206
    /\ header_get (resp_headers r) "Content-Range" = Some "bytes 0-99/100"
    /\ header_get (resp_headers r) "Content-Length" = Some "100".
Proof. eexists. repeat split. Qed.

Example range_beyond_object :
  http_status (Demo.download 100 (Demo.with_range "bytes=150-160")) = Some 416.
Proof. reflexivity. Qed.

(** The second and third client are equally idle: the second is taken. *)
Example select_first_of_tie : select_index Demo.w0 = inr 1.
Proof. reflexivity. Qed.

(** C1, the claim as stated fails: with [until = size] the request
    [bytes=0-100] on 100 bytes is served with 206 although
    [until >= size], and the 416 answer has a body. *)
Lemma until_equal_size_is_served :
  parse_range (Demo.with_range "bytes=0-100") 100 = inr (0, 100)
  /\ Spec.range_not_satisfiable 100 0 100 = true
  /\ http_status (Demo.download 100 (Demo.with_range "bytes=0-100")) = Some 206
  /\ exists r,
      Demo.stream 100 (Demo.with_range "bytes=150-160") = inr r
      /\ status r = 416
      /\ body r = BodyText "416: Range not satisfiable"
      /\ body r <> BodyText EmptyString.
Proof.
  repeat split. eexists. repeat split. discriminate.
Qed.

Lemma range_check_416_witness :
  exists r,
    Demo.stream 100 (Demo.with_range "bytes=150-160") = inr r
    /\ (160 > 100 \/ 150 < 0 \/ 160 < 150 -> status r = 416)
    /\ (150 < 100 -> status r = 416 -> 160 > 100 \/ 150 < 0 \/ 160 < 150)
    /\ (status r = 416 ->
        r = {| status := 416;
               body := BodyText "416: Range not satisfiable";
               resp_headers := [("Content-Range", "bytes */100")];
               content_type := None |}).
Proof.
  eapply (range_check_416 (Demo.resolver 100) Demo.get_name Demo.guess_type
            Demo.w0 (Demo.with_range "bytes=150-160") "abc123" false
            _ _ _ Demo.file_100 150 160); reflexivity.
Defined.

(** C2: for [bytes=0-1048576] on 2_000_000 bytes, whose last byte is the
    first byte of the second chunk, the route plans one chunk where the
    specification's formula gives two. *)
Theorem part_count_short_at_chunk_boundary :
  exists r,
    Demo.stream 2000000 (Demo.with_range "bytes=0-1048576") = inr r
    /\ plan_of r = Some (0, 0, 1, 1)
    /\ Spec.part_count chunk_size 0 1048576 = 2.
Proof. eexists. repeat split. Qed.

(** C3: for the same request the plan delivers
    [(part_count - 1) * chunk_size + last_cut - first_cut = 1] byte while
    [until - from + 1 = 1048577] bytes are announced. *)
Theorem plan_length_short_at_chunk_boundary :
  exists r o f l p,
    Demo.stream 2000000 (Demo.with_range "bytes=0-1048576") = inr r
    /\ plan_of r = Some (o, f, l, p)
    /\ Spec.trimmed_length chunk_size f l p = 1
    /\ req_length 0 1048576 = 1048577
    /\ header_get (resp_headers r) "Content-Length" = Some "1048577".
Proof. do 5 eexists. repeat split. Qed.

(** C4, the claim as stated fails: the plan of [bytes=500000-1500000] has
    [last_cut = 1500000 mod 1048576 + 1 = 451425], not 451665. *)
Lemma example_last_cut_is_451425 :
  exists r o f l p,
    Demo.stream 10000000 (Demo.with_range "bytes=500000-1500000") = inr r
    /\ plan_of r = Some (o, f, l, p)
    /\ l = 1500000 mod 1048576 + 1
    /\ l <> 451665.
Proof. do 5 eexists. repeat split. discriminate. Qed.

Lemma example_plan_witness :
  exists r,
    Demo.stream 10000000 (Demo.with_range "bytes=500000-1500000") = inr r
    /\ plan_of r = Some (0, 500000, 451425, 2)
    /\ chunk_size = 1048576
    /\ header_get (resp_headers r) "Content-Length" = Some "1000001".
Proof.
  eapply (example_plan (Demo.resolver 10000000) Demo.get_name Demo.guess_type
            Demo.w0 (Demo.with_range "bytes=500000-1500000") "abc123" false);
    reflexivity.
Defined.

(** C5: for [bytes=0-0] on a one-byte object the plan has
    [part_count = 0], which is not positive; the other bounds hold. *)
Theorem part_count_zero_for_first_byte :
  exists r o f l p,
    Demo.stream 1 (Demo.with_range "bytes=0-0") = inr r
    /\ plan_of r = Some (o, f, l, p)
    /\ p = 0
    /\ o mod chunk_size = 0 /\ o <= 0 < o + chunk_size
    /\ 0 <= f < chunk_size /\ 1 <= l <= chunk_size.
Proof. do 5 eexists. repeat split; (reflexivity || discriminate). Qed.

Lemma status_200_or_206_witness :
  exists r,
    Demo.stream 100 Demo.without_range = inr r
    /\ status r = 200
    /\ header_get (resp_headers r) "Content-Range" = Some "bytes 0-99/100"
    /\ header_get (resp_headers r) "Content-Length" = Some "100"
    /\ exists g, body r = BodyStream g /\ yf_file_id g = Demo.file_100.
Proof.
  eexists. split; [reflexivity|].
  edestruct (status_200_or_206 (Demo.resolver 100) Demo.get_name
               Demo.guess_type Demo.w0 Demo.without_range "abc123" false)
    as (index & tg & w' & fid & _ & Hr & _ & H200 & Hwhole);
    [reflexivity|discriminate|].
  injection Hr as <-.
  destruct (Hwhole eq_refl) as (_ & Hcr & Hcl & Hg).
  split; [apply H200; reflexivity|].
  split; [exact Hcr|]. split; [exact Hcl|]. exact Hg.
Defined.

(** C7, the claim as stated fails: when the resolver's connection is
    reset the /dl handler returns [None], and the client is answered 500
    with the body [500: Internal Server Error]. *)
Lemma reset_connection_is_answered_500 :
  fst (media_streamer Demo.resetting Demo.get_name Demo.guess_type
         Demo.w0 Demo.without_range "abc123" false)
  = inl (Py.ConnectionResetError "Connection reset by peer")
  /\ Spec.transient (Py.ConnectionResetError "Connection reset by peer")
  /\ fst (download_handler Demo.resetting Demo.get_name Demo.guess_type
            Demo.w0 Demo.without_range) = ReturnNone
  /\ http_status ReturnNone = Some 500
  /\ http_text ReturnNone = Some "500: Internal Server Error".
Proof.
  repeat split.
Qed.

Lemma error_table_witness :
  Spec.error_mapping (Py.InvalidHash "Invalid hash")
    (fst (download_handler Demo.rejecting Demo.get_name Demo.guess_type
            Demo.w0 Demo.without_range)).
Proof.
  apply (proj1 (error_table Demo.rejecting Demo.get_name Demo.guess_type
                  Demo.render_page Demo.w0 Demo.without_range
                  (Py.InvalidHash "Invalid hash"))).
  reflexivity.
Defined.

Lemma select_least_loaded_witness :
  exists k v pre post,
    select_index Demo.w0 = inr k
    /\ dict_keys Demo.loads = (pre ++ k :: post)%list
    /\ dict_get Demo.loads k = Some v
    /\ (forall k' v', dict_get Demo.loads k' = Some v' -> v <= v')
    /\ (forall k' v', k' ∈ pre -> dict_get Demo.loads k' = Some v' -> v < v').
Proof.
  apply (select_least_loaded Demo.w0). simpl. discriminate.
Defined.

(** Two requests whose first lookups are interleaved share one session. *)
Lemma session_built_once_witness :
  let s := run (Demo.resolver 100) Demo.get_name Demo.guess_type
               (boot Demo.loads Demo.clients) Demo.two_first_lookups in
  held <$> tasks s
  = [Some {| bs_id := 0; bs_client := 11 |};
     Some {| bs_id := 0; bs_client := 11 |}]
  /\ (forall c, built_for (world s) c <= 1)%nat.
Proof.
  split; [reflexivity|].
  apply (session_built_once (Demo.resolver 100) Demo.get_name Demo.guess_type
           Demo.loads Demo.clients Demo.two_first_lookups).
Defined.

(** C10, the claim as stated fails: the from part [+5] is not a plain
    literal, yet [int()] reads it and the request is served; and with a
    hash the resolver rejects, the suffix form is answered 403. *)
Lemma signed_from_is_served :
  Spec.plain_literal (from_part "bytes=+5-10") = false
  /\ http_status (Demo.download 100 (Demo.with_range "bytes=+5-10")) = Some 206
  /\ Spec.plain_literal (from_part "bytes=-500") = false
  /\ http_status
       (fst (download_handler Demo.rejecting Demo.get_name Demo.guess_type
               Demo.w0 (Demo.with_range "bytes=-500"))) = Some 403.
Proof. repeat split. Qed.

Lemma unparsable_from_is_500_witness :
  Py.int_accepts (from_part "bytes=-500") = false
  /\ exists msg,
      (forall is_video,
          fst (media_streamer (Demo.resolver 100) Demo.get_name Demo.guess_type
                 Demo.w0 (Demo.with_range "bytes=-500") "abc123" is_video)
          = inl (Py.ValueError msg))
      /\ Demo.download 100 (Demo.with_range "bytes=-500")
         = HTTPInternalServerError msg
      /\ fst (video_stream_handler (Demo.resolver 100) Demo.get_name
                Demo.guess_type Demo.w0 (Demo.with_range "bytes=-500"))
         = HTTPInternalServerError msg
      /\ http_status (Demo.download 100 (Demo.with_range "bytes=-500"))
         = Some 500.
Proof.
  split; [reflexivity|].
  eapply (unparsable_from_is_500 (Demo.resolver 100) Demo.get_name
            Demo.guess_type Demo.w0 (Demo.with_range "bytes=-500")
            "bytes=-500"); reflexivity.
Defined.

(** ** Decimal strings: [str] and [int] *)

Lemma int_scan_uint (d : Decimal.uint) (neg : bool) (acc : Z) (digits : nat) :
  (digits + Decimal.nb_digits d <= Py.int_max_str_digits)%nat ->
  Py.int_scan Py.Digits neg acc digits (NilEmpty.string_of_uint d)
  = Py.Parsed (if neg then - uint_value d acc else uint_value d acc).
Proof.
  revert acc digits.
  induction d; intros acc digits Hlen;
    cbn [NilEmpty.string_of_uint uint_value Decimal.nb_digits] in *;
    cbn [Py.int_scan].
  1: { destruct (Nat.ltb_spec Py.int_max_str_digits digits);
       [lia|reflexivity]. }
  all: match goal with
       | |- context [Py.digit_value ?c] =>
           let v := eval vm_compute in (Py.digit_value c) in
           change (Py.digit_value c) with v
       end; cbv iota; apply IHd; lia.
Qed.

Lemma uint_value_pos (d : Decimal.uint) (acc : positive) :
  uint_value d (Z.pos acc) = Z.pos (Pos.of_uint_acc d acc).
Proof.
  revert acc. induction d; intros acc; cbn [uint_value Pos.of_uint_acc];
    [reflexivity|..];
    match goal with
    | |- uint_value _ ?a = Z.pos (Pos.of_uint_acc _ ?b) =>
        replace a with (Z.pos b) by lia
    end; apply IHd.
Qed.

Lemma uint_value_zero (d : Decimal.uint) :
  uint_value d 0 = Z.of_N (Pos.of_uint d).
Proof.
  induction d; cbn [uint_value Pos.of_uint]; [reflexivity|exact IHd|..];
    cbn [Z.of_N];
    match goal with
    | |- uint_value _ ?a = Z.pos (Pos.of_uint_acc _ ?b) =>
        change a with (Z.pos b)
    end; apply uint_value_pos.
Qed.

(** The digits read after [acc] only add to it. *)
Lemma uint_value_lower (d : Decimal.uint) (acc : Z) :
  0 <= acc -> acc * 10 ^ Z.of_nat (Decimal.nb_digits d) <= uint_value d acc.
Proof.
  revert acc. induction d; intros acc Hacc;
    cbn [uint_value Decimal.nb_digits]; [simpl; lia|..];
    rewrite Nat2Z.inj_succ, Z.pow_succ_r by lia;
    (etransitivity; [|apply IHd; lia]);
    pose proof (Z.pow_pos_nonneg 10 (Z.of_nat (Decimal.nb_digits d))
                  ltac:(lia) ltac:(lia)); nia.
Qed.

(** The decimal of a positive number has no more digits than a power of ten
    above it has zeros. *)
Lemma to_uint_digits (p : positive) (k : nat) :
  Z.pos p < 10 ^ Z.of_nat k -> (Decimal.nb_digits (Pos.to_uint p) <= k)%nat.
Proof.
  intros Hp.
  pose proof (DecimalPos.Unsigned.to_uint_nonnil p) as Hnil.
  assert (Hnorm : Decimal.unorm (Pos.to_uint p) = Pos.to_uint p).
  { rewrite <- DecimalPos.Unsigned.to_of, DecimalPos.Unsigned.of_to.
    reflexivity. }
  assert (Hval : uint_value (Pos.to_uint p) 0 = Z.pos p).
  { rewrite uint_value_zero, DecimalPos.Unsigned.of_to. reflexivity. }
  destruct (Pos.to_uint p) as [|d|d|d|d|d|d|d|d|d|d] eqn:Hd; [congruence|..].
  1: { exfalso. unfold Decimal.unorm in Hnorm.
       cbn [Decimal.nzhead] in Hnorm.
       pose proof (DecimalFacts.nb_digits_nzhead d) as Hle.
       destruct (Decimal.nzhead d) eqn:Hz;
         [|rewrite Hnorm in Hle; cbn [Decimal.nb_digits] in Hle; lia..].
       injection Hnorm as <-.
       now apply (DecimalPos.Unsigned.to_uint_nonzero p). }
  all: cbn [uint_value Decimal.nb_digits] in *;
    match type of Hval with
    | uint_value _ ?a = _ =>
        pose proof (uint_value_lower d a ltac:(lia)) as Hlow
    end;
    destruct (Nat.le_gt_cases (S (Decimal.nb_digits d)) k) as [|Hgt];
    [assumption|exfalso];
    assert (10 ^ Z.of_nat k <= 10 ^ Z.of_nat (Decimal.nb_digits d))
      by (apply Z.pow_le_mono_r; lia);
    pose proof (Z.pow_pos_nonneg 10 (Z.of_nat (Decimal.nb_digits d))
                  ltac:(lia) ltac:(lia)); nia.
Qed.

Lemma int_scan_leading_uint (d : Decimal.uint) :
  d <> Decimal.Nil ->
  (Decimal.nb_digits d <= Py.int_max_str_digits)%nat ->
  Py.int_scan Py.Leading false 0 0 (NilEmpty.string_of_uint d)
  = Py.Parsed (uint_value d 0)
  /\ Py.int_scan Py.Signed true 0 0 (NilEmpty.string_of_uint d)
     = Py.Parsed (- uint_value d 0).
Proof.
  intros Hd Hlen. destruct d; [congruence|..];
    cbn [NilEmpty.string_of_uint uint_value Decimal.nb_digits] in *;
    split; cbn [Py.int_scan];
    repeat match goal with
      | |- context [Py.digit_value ?c] =>
          let v := eval vm_compute in (Py.digit_value c) in
          change (Py.digit_value c) with v
      | |- context [Py.is_space ?c] =>
          let v := eval vm_compute in (Py.is_space c) in
          change (Py.is_space c) with v
      | |- context [Ascii.eqb ?a ?b] =>
          let v := eval vm_compute in (Ascii.eqb a b) in
          change (Ascii.eqb a b) with v
      end; cbv iota; apply (int_scan_uint d); lia.
Qed.

Lemma string_of_uint_nonnil (d : Decimal.uint) :
  d <> Decimal.Nil -> NilZero.string_of_uint d = NilEmpty.string_of_uint d.
Proof. destruct d; [congruence|reflexivity..]. Qed.

(** [int(str(n)) == n] for every [int] of at most 4300 digits. *)
Lemma int_str (n : Z) :
  - Py.int_limit < n < Py.int_limit -> Py.int (Py.str n) = inr n.
Proof.
  intros Hn. unfold Py.int, Py.str. destruct n as [|p|p]; [reflexivity|..];
    cbn [Z.to_int NilZero.string_of_int];
    pose proof (DecimalPos.Unsigned.to_uint_nonnil p) as Hnil;
    assert (Hlen : (Decimal.nb_digits (Pos.to_uint p)
                    <= Py.int_max_str_digits)%nat)
      by (apply to_uint_digits;
          change (10 ^ Z.of_nat Py.int_max_str_digits) with Py.int_limit;
          lia);
    rewrite (string_of_uint_nonnil _ Hnil).
  - rewrite (proj1 (int_scan_leading_uint _ Hnil Hlen)), uint_value_zero,
      DecimalPos.Unsigned.of_to. reflexivity.
  - cbn [Py.int_scan].
    change (Py.is_space "-") with false. change (Ascii.eqb "-" "+") with false.
    change (Ascii.eqb "-" "-") with true. cbv iota.
    rewrite (proj2 (int_scan_leading_uint _ Hnil Hlen)), uint_value_zero,
      DecimalPos.Unsigned.of_to. reflexivity.
Qed.

(** Different numbers have different decimals. *)
Lemma str_inj (n m : Z) : Py.str n = Py.str m -> n = m.
Proof.
  unfold Py.str. intros H. apply DecimalZ.to_int_inj.
  assert (Hok : forall k, Z.to_int k <> Decimal.Pos Decimal.Nil
                          /\ Z.to_int k <> Decimal.Neg Decimal.Nil).
  { intros [|p|p]; cbn [Z.to_int]; split; try discriminate;
      intros [= Hp]; now apply (DecimalPos.Unsigned.to_uint_nonnil p). }
  pose proof (NilZero.isi (Z.to_int n) (proj1 (Hok n)) (proj2 (Hok n))) as Hn.
  pose proof (NilZero.isi (Z.to_int m) (proj1 (Hok m)) (proj2 (Hok m))) as Hm.
  rewrite H in Hn. congruence.
Qed.

Lemma string_of_uint_digits (d : Decimal.uint) :
  Spec.all_digits (NilEmpty.string_of_uint d) = true.
Proof. induction d; simpl; auto. Qed.

(** The decimal text of a non-negative [int] is a plain literal. *)
Lemma str_plain (n : Z) : 0 <= n -> Spec.plain_literal (Py.str n) = true.
Proof.
  intros Hn. unfold Py.str, Spec.plain_literal.
  destruct n as [|p|p]; [reflexivity| |lia].
  cbn [Z.to_int NilZero.string_of_int].
  pose proof (DecimalPos.Unsigned.to_uint_nonnil p) as Hnil.
  rewrite (string_of_uint_nonnil _ Hnil), string_of_uint_digits.
  destruct (Pos.to_uint p); [congruence|reflexivity..].
Qed.

(** [int()] raises nothing but [ValueError]. *)
Lemma int_raises_value_error (s : string) (e : Py.exn) :
  Py.int s = inl e -> exists msg, e = Py.ValueError msg.
Proof.
  unfold Py.int. destruct (Py.int_scan _ _ _ _ s); [discriminate|..];
    intros [= <-]; eexists; reflexivity.
Qed.

Lemma int_rejected (s : string) :
  Py.int_accepts s = false -> exists msg, Py.int s = inl (Py.ValueError msg).
Proof.
  unfold Py.int, Py.int_accepts.
  destruct (Py.int_scan _ _ _ _ s); [discriminate|..];
    intros _; eexists; reflexivity.
Qed.

(** ** [replace] and [split] on the text of a range *)

Lemma append_cons (c : ascii) (s t : string) :
  (String c s ++ t = String c (s ++ t))%string.
Proof. reflexivity. Qed.

Lemma append_empty_r (s : string) : (s ++ EmptyString = s)%string.
Proof. induction s as [|c s IH]; [reflexivity|]. now rewrite append_cons, IH. Qed.

Lemma append_assoc (s t u : string) : ((s ++ t) ++ u = s ++ (t ++ u))%string.
Proof.
  induction s as [|c s IH]; [reflexivity|]. now rewrite !append_cons, IH.
Qed.

Lemma prefix_empty (s : string) : String.prefix EmptyString s = true.
Proof. destruct s; reflexivity. Qed.

Lemma digit_not (c a : ascii) :
  Py.digit_value a = None -> is_Some (Py.digit_value c) -> a <> c.
Proof. intros Ha [d Hc] ->. congruence. Qed.

(** Digits are copied by [replace("bytes=", "")]. *)
Lemma replace_digits (t rest : string) :
  Spec.all_digits t = true ->
  Py.replace_from "bytes=" EmptyString 0 (t ++ rest)
  = (t ++ Py.replace_from "bytes=" EmptyString 0 rest)%string.
Proof.
  induction t as [|c t IH]; intros Ht; [reflexivity|].
  cbn [Spec.all_digits] in Ht.
  destruct (Py.digit_value c) as [d|] eqn:Hc; [|discriminate].
  rewrite !append_cons. cbn [Py.replace_from String.prefix].
  destruct (ascii_dec "b" c) as [Hb|_].
  - exfalso. revert Hb. apply digit_not; [reflexivity|eauto].
  - now rewrite IH.
Qed.

Lemma replace_dash (rest : string) :
  Py.replace_from "bytes=" EmptyString 0 (String "-" rest)
  = String "-" (Py.replace_from "bytes=" EmptyString 0 rest).
Proof. reflexivity. Qed.

Lemma replace_unit (t : string) :
  Py.replace "bytes=" EmptyString ("bytes=" ++ t)
  = Py.replace_from "bytes=" EmptyString 0 t.
Proof.
  unfold Py.replace. change ("bytes=" ++ t)%string
    with (String "b" (String "y" (String "t" (String "e" (String "s"
            (String "=" t)))))).
  cbn [Py.replace_from String.prefix String.length Nat.pred].
  repeat match goal with
         | |- context [ascii_dec ?a ?b] =>
             let v := eval vm_compute in (ascii_dec a b) in
             change (ascii_dec a b) with v; cbv iota
         end.
  rewrite prefix_empty. reflexivity.
Qed.

(** Digits are gathered into the current piece by [split("-")]. *)
Lemma split_digits (t rest cur : string) :
  Spec.all_digits t = true ->
  Py.split_from "-" 0 cur (t ++ rest) = Py.split_from "-" 0 (cur ++ t) rest.
Proof.
  revert cur. induction t as [|c t IH]; intros cur Ht.
  - change (EmptyString ++ rest)%string with rest. now rewrite append_empty_r.
  - cbn [Spec.all_digits] in Ht.
    destruct (Py.digit_value c) as [d|] eqn:Hc; [|discriminate].
    rewrite append_cons. cbn [Py.split_from String.prefix].
    destruct (ascii_dec "-" c) as [Hb|_].
    + exfalso. revert Hb. apply digit_not; [reflexivity|eauto].
    + rewrite IH by exact Ht. now rewrite append_assoc.
Qed.

Lemma split_dash (rest cur : string) :
  Py.split_from "-" 0 cur (String "-" rest)
  = cur :: Py.split_from "-" 0 EmptyString rest.
Proof.
  cbn [Py.split_from String.prefix].
  change (ascii_dec "-" "-") with (left (eq_refl "-"%char) : {"-" = "-"} + {"-" <> "-"})%char.
  cbv iota. rewrite prefix_empty. reflexivity.
Qed.

(** The text [<a>-<b>] splits into its two numbers. *)
Lemma split_range (ta tb : string) :
  Spec.all_digits ta = true -> Spec.all_digits tb = true ->
  Py.split "-" (Py.replace_from "bytes=" EmptyString 0 (ta ++ String "-" tb))
  = inr [ta; tb].
Proof.
  intros Ha Hb. rewrite (replace_digits ta _ Ha), replace_dash.
  rewrite <- (append_empty_r tb) at 1.
  rewrite (replace_digits tb _ Hb).
  unfold Py.split, Py.ret. f_equal. cbn [Py.replace_from].
  rewrite (split_digits ta _ _ Ha), split_dash, (split_digits tb _ _ Hb).
  reflexivity.
Qed.

(** ** Ranges as clients write them *)

Lemma str_truthy (n : Z) : Py.truthy (Py.str n) = true.
Proof.
  unfold Py.str. destruct n as [|p|p]; [reflexivity| |reflexivity].
  cbn [Z.to_int NilZero.string_of_int].
  pose proof (DecimalPos.Unsigned.to_uint_nonnil p) as Hn.
  rewrite (string_of_uint_nonnil _ Hn).
  destruct (Pos.to_uint p); [congruence|reflexivity..].
Qed.

Lemma str_all_digits (n : Z) : 0 <= n -> Spec.all_digits (Py.str n) = true.
Proof.
  intros Hn. pose proof (str_plain n Hn) as H. unfold Spec.plain_literal in H.
  now apply andb_prop in H as [_ H].
Qed.

(** What lines 146-148 return from the pieces of a non-empty header. *)
Lemma parse_range_pieces request size h f u :
  headers request !! "Range" = Some h ->
  Py.truthy h = true ->
  Py.split "-" (Py.replace "bytes=" EmptyString h) = inr [f; u] ->
  parse_range request size
  = (from_bytes <- Py.int f ;;
     until_bytes <- (if Py.truthy u then Py.int u else Py.ret (size - 1)) ;;
     Py.ret (from_bytes, until_bytes)).
Proof.
  intros Hh Ht Hs. unfold parse_range. rewrite Hh.
  destruct h as [|c h]; [discriminate|]. rewrite Hs. reflexivity.
Qed.

Lemma truthy_append_l (s t : string) :
  Py.truthy s = true -> Py.truthy (s ++ t) = true.
Proof. destruct s; [discriminate|reflexivity]. Qed.

(** X1: a [Range] value written [bytes=<a>-<b>] with decimal [a], [b] of
    at most 4300 digits is read back as [(a, b)]; the unit [bytes=] may be
    left out. *)
Theorem parse_range_formatted request size a b h :
  0 <= a < Py.int_limit -> 0 <= b < Py.int_limit ->
  headers request !! "Range" = Some h ->
  (h = "bytes=" ++ Py.str a ++ "-" ++ Py.str b
   \/ h = Py.str a ++ "-" ++ Py.str b)%string ->
  parse_range request size = inr (a, b).
Proof.
  intros Ha Hb Hh Hform.
  assert (Hs : Py.split "-" (Py.replace "bytes=" EmptyString h)
               = inr [Py.str a; Py.str b]).
  { destruct Hform as [-> | ->].
    - rewrite replace_unit.
      apply split_range; apply str_all_digits; lia.
    - apply (split_range (Py.str a) (Py.str b)); apply str_all_digits; lia. }
  assert (Ht : Py.truthy h = true).
  { destruct Hform as [-> | ->]; [reflexivity|].
    apply truthy_append_l, str_truthy. }
  rewrite (parse_range_pieces request size h _ _ Hh Ht Hs).
  rewrite int_str by lia. cbn [Py.bind].
  rewrite str_truthy, int_str by lia. reflexivity.
Qed.

(** The open-ended form [bytes=<a>-] runs to the last byte. *)
Lemma parse_range_open_ended request size a :
  0 <= a < Py.int_limit ->
  headers request !! "Range" = Some ("bytes=" ++ Py.str a ++ "-")%string ->
  parse_range request size = inr (a, size - 1).
Proof.
  intros Ha Hh.
  assert (Hs : Py.split "-" (Py.replace "bytes=" EmptyString
                               ("bytes=" ++ Py.str a ++ "-"))
               = inr [Py.str a; EmptyString]).
  { rewrite replace_unit.
    apply (split_range (Py.str a) EmptyString);
      [apply str_all_digits; lia|].
    reflexivity. }
  rewrite (parse_range_pieces request size _ _ _ Hh eq_refl Hs).
  rewrite int_str by lia. reflexivity.
Qed.

Section Served.

Variable get_file_properties :
  ByteStreamer -> string -> gmap Z Client -> Py.M FileId.
Variable get_name : FileId -> string.
Variable guess_type : string -> option string.

Let streamer := media_streamer get_file_properties get_name guess_type.
Let response_of := build_response get_name guess_type.
Let dl_route := download_handler get_file_properties get_name guess_type.
Let video_route :=
  video_stream_handler get_file_properties get_name guess_type.

(** The headers of a served response, read by name. *)
Lemma served_headers request is_video index tg fid from_bytes until_bytes :
  range_not_satisfiable (file_size fid) from_bytes until_bytes = false ->
  let r := response_of request is_video index tg fid from_bytes until_bytes in
  let until' := clamp_until (file_size fid) until_bytes in
  status r = (if range_requested request then 206 else 200)
  /\ header_get (resp_headers r) "Content-Range"
     = Some ("bytes " ++ Py.str from_bytes ++ "-" ++ Py.str until' ++ "/"
               ++ Py.str (file_size fid))%string
  /\ header_get (resp_headers r) "Content-Length"
     = Some (Py.str (until' - from_bytes + 1))
  /\ plan_of r
     = Some (offset (chunk_plan chunk_size from_bytes until'),
             first_part_cut (chunk_plan chunk_size from_bytes until'),
             last_part_cut (chunk_plan chunk_size from_bytes until'),
             part_count (chunk_plan chunk_size from_bytes until')).
Proof.
  intros Hn. unfold response_of, build_response. rewrite Hn.
  destruct is_video; repeat split.
Qed.

(** X2: a request [bytes=<a>-<b>] with [0 <= a <= b < size], on an object
    of less than [10^4300] bytes so that [int()] and [str()] convert the
    numbers, is answered 206 with [Content-Range: bytes a-b/size] and
    [Content-Length] b-a+1. *)
Theorem range_request_served w request db_id is_video index tg w' fid a b :
  media_streamer_connect w = inr (index, tg, w') ->
  get_file_properties tg db_id (multi_clients w') = inr fid ->
  headers request !! "Range"
  = Some ("bytes=" ++ Py.str a ++ "-" ++ Py.str b)%string ->
  0 <= a <= b -> b < file_size fid -> file_size fid < Py.int_limit ->
  exists r,
    fst (streamer w request db_id is_video) = inr r
    /\ status r = 206
    /\ header_get (resp_headers r) "Content-Range"
       = Some ("bytes " ++ Py.str a ++ "-" ++ Py.str b ++ "/"
                 ++ Py.str (file_size fid))%string
    /\ header_get (resp_headers r) "Content-Length" = Some (Py.str (b - a + 1)).
Proof.
  intros Hc Hr Hh Hab Hb Hlim. unfold streamer.
  rewrite (media_streamer_resolved _ _ _ _ _ _ _ _ _ _ _ Hc Hr).
  rewrite (parse_range_formatted request (file_size fid) a b _
             ltac:(lia) ltac:(lia) Hh (or_introl eq_refl)).
  cbn [Py.bind fst snd]. eexists; split; [reflexivity|].
  assert (Hn : range_not_satisfiable (file_size fid) a b = false)
    by (unfold range_not_satisfiable; lia).
  destruct (served_headers request is_video index tg fid a b Hn)
    as (Hs & Hcr & Hcl & _).
  assert (Hcu : clamp_until (file_size fid) b = b)
    by (unfold clamp_until; lia).
  rewrite Hcu in Hcr, Hcl. fold response_of.
  split; [|split; assumption].
  rewrite Hs. unfold range_requested. rewrite Hh. reflexivity.
Qed.

(** X3: when a backend is selected and the object resolves, the
    open-ended request [bytes=<a>-], with [a] of at most 4300 digits, is
    answered with the tail of the object from byte [a] when [a < size], and
    with 416 when [a >= size]. *)
Theorem open_ended_request w request db_id is_video index tg w' fid a :
  media_streamer_connect w = inr (index, tg, w') ->
  get_file_properties tg db_id (multi_clients w') = inr fid ->
  headers request !! "Range" = Some ("bytes=" ++ Py.str a ++ "-")%string ->
  0 <= a < Py.int_limit ->
  exists r,
    fst (streamer w request db_id is_video) = inr r
    /\ (a < file_size fid ->
        status r = 206
        /\ header_get (resp_headers r) "Content-Range"
           = Some ("bytes " ++ Py.str a ++ "-" ++ Py.str (file_size fid - 1)
                     ++ "/" ++ Py.str (file_size fid))%string
        /\ header_get (resp_headers r) "Content-Length"
           = Some (Py.str (file_size fid - a)))
    /\ (file_size fid <= a -> r = response_416 (file_size fid)).
Proof.
  intros Hc Hr Hh Ha. unfold streamer.
  rewrite (media_streamer_resolved _ _ _ _ _ _ _ _ _ _ _ Hc Hr).
  rewrite (parse_range_open_ended request (file_size fid) a Ha Hh).
  cbn [Py.bind fst snd]. eexists; split; [reflexivity|]. split.
  - intros Hlt.
    assert (Hn : range_not_satisfiable (file_size fid) a (file_size fid - 1)
                 = false) by (unfold range_not_satisfiable; lia).
    destruct (served_headers request is_video index tg fid a _ Hn)
      as (Hs & Hcr & Hcl & _).
    assert (Hcu : clamp_until (file_size fid) (file_size fid - 1)
                  = file_size fid - 1) by (unfold clamp_until; lia).
    rewrite Hcu in Hcr, Hcl. fold response_of.
    replace (file_size fid - 1 - a + 1) with (file_size fid - a) in Hcl by lia.
    split; [|split; assumption].
    rewrite Hs. unfold range_requested. rewrite Hh. reflexivity.
  - intros Hge. unfold build_response.
    assert (Hn : range_not_satisfiable (file_size fid) a (file_size fid - 1)
                 = true) by (unfold range_not_satisfiable; lia).
    now rewrite Hn.
Qed.

(** X4: a response other than 416 is built for the object the resolver
    answered with, of [size] bytes, and the range parsed against that
    size; when the range starts inside the object ([from < size]) its
    [Content-Length] is the decimal of [min(until, size-1) - from + 1], a
    number between 1 and [size - from]. *)
Theorem announced_length_bounds w request db_id is_video r :
  fst (streamer w request db_id is_video) = inr r ->
  status r <> 416 ->
  exists index tg w' fid from_bytes until_bytes,
    media_streamer_connect w = inr (index, tg, w')
    /\ get_file_properties tg db_id (multi_clients w') = inr fid
    /\ parse_range request (file_size fid) = inr (from_bytes, until_bytes)
    /\ (from_bytes < file_size fid ->
        exists n,
          header_get (resp_headers r) "Content-Length" = Some (Py.str n)
          /\ n = Z.min until_bytes (file_size fid - 1) - from_bytes + 1
          /\ 1 <= n <= file_size fid - from_bytes).
Proof.
  intros Hm Hs.
  destruct (media_streamer_returns_resolved _ _ _ _ _ _ _ _ Hm)
    as (index & tg & w' & fid & f & u & Hc & Hr & Hp & ->).
  rewrite build_response_status in Hs.
  destruct (range_not_satisfiable (file_size fid) f u) eqn:Hn; [congruence|].
  destruct (served_headers request is_video index tg fid f u Hn)
    as (_ & _ & Hcl & _).
  exists index, tg, w', fid, f, u.
  split; [exact Hc|]. split; [exact Hr|]. split; [exact Hp|].
  intros Hf. exists (clamp_until (file_size fid) u - f + 1).
  split; [exact Hcl|]. split; [reflexivity|].
  unfold range_not_satisfiable in Hn. unfold clamp_until. lia.
Qed.

(** X5: a range that ends at [until = size], one past the last byte, is
    answered exactly as the range that ends at [size - 1]. *)
Theorem until_size_is_clamped request is_video index tg fid from_bytes :
  0 <= from_bytes < file_size fid ->
  response_of request is_video index tg fid from_bytes (file_size fid)
  = response_of request is_video index tg fid from_bytes (file_size fid - 1)
  /\ status (response_of request is_video index tg fid from_bytes
               (file_size fid)) <> 416.
Proof.
  intros Hf. unfold response_of, build_response.
  assert (H1 : range_not_satisfiable (file_size fid) from_bytes (file_size fid)
               = false) by (unfold range_not_satisfiable; lia).
  assert (H2 : range_not_satisfiable (file_size fid) from_bytes
                 (file_size fid - 1) = false)
    by (unfold range_not_satisfiable; lia).
  rewrite H1, H2.
  assert (Hc : clamp_until (file_size fid) (file_size fid)
               = clamp_until (file_size fid) (file_size fid - 1))
    by (unfold clamp_until; lia).
  rewrite Hc. split; [reflexivity|].
  cbn [status]. destruct (range_requested request); discriminate.
Qed.

(** X6: with an empty load table every request to /dl and /video is
    answered 500, whatever it asks for, and the state is left as it was. *)
Theorem empty_pool_is_500 w request :
  work_loads w = [] ->
  dl_route w request
  = (HTTPInternalServerError "min() arg is an empty sequence", w)
  /\ video_route w request
     = (HTTPInternalServerError "min() arg is an empty sequence", w).
Proof.
  intros Hw. unfold dl_route, video_route, download_handler,
    video_stream_handler, media_streamer, media_streamer_connect, select_index.
  rewrite Hw. split; reflexivity.
Qed.

(** X7: when the least loaded index has no client in [multi_clients] the
    request is answered 500 with the index as its text, before the object
    is looked up. *)
Theorem missing_client_is_500 w request index :
  select_index w = inr index ->
  multi_clients w !! index = None ->
  dl_route w request = (HTTPInternalServerError (Py.str index), w)
  /\ video_route w request = (HTTPInternalServerError (Py.str index), w).
Proof.
  intros Hs Hm. unfold dl_route, video_route, download_handler,
    video_stream_handler, media_streamer, media_streamer_connect, lookup_client.
  rewrite Hs. cbn [Py.bind]. rewrite Hm. split; reflexivity.
Qed.

(** ** What a request leaves behind *)

Lemma get_session_frame w c b w' :
  get_session w c = (b, w') ->
  work_loads w' = work_loads w
  /\ multi_clients w' = multi_clients w
  /\ (forall c0 b0, class_cache w !! c0 = Some b0 ->
                    class_cache w' !! c0 = Some b0)
  /\ class_cache w' !! c = Some b
  /\ exists new, constructed w' = (constructed w ++ new)%list
                 /\ (length new <= 1)%nat.
Proof.
  unfold get_session.
  destruct (class_cache w !! c) as [b0|] eqn:Hc; intros [= <- <-].
  - repeat split; try done. exists []. rewrite app_nil_r. split; [done|simpl; lia].
  - cbn [work_loads multi_clients class_cache constructed].
    repeat split.
    + intros c0 b0 H0. rewrite lookup_insert_ne; [done|congruence].
    + apply lookup_insert_eq.
    + eexists. split; [reflexivity|simpl; lia].
Qed.

(** X8: [media_streamer] never changes [work_loads] or [multi_clients],
    never removes or replaces a cached session, and builds at most one
    [ByteStreamer]. *)
Theorem media_streamer_frame w request db_id is_video :
  let w' := snd (streamer w request db_id is_video) in
  work_loads w' = work_loads w
  /\ multi_clients w' = multi_clients w
  /\ (forall c b, class_cache w !! c = Some b -> class_cache w' !! c = Some b)
  /\ exists new, constructed w' = (constructed w ++ new)%list
                 /\ (length new <= 1)%nat.
Proof.
  unfold streamer, media_streamer, media_streamer_connect.
  destruct (select_index w) as [e|i]; cbn [Py.bind snd].
  { repeat split; try done. exists []. rewrite app_nil_r. split; [done|simpl; lia]. }
  destruct (lookup_client w i) as [e|c]; cbn [Py.bind snd].
  { repeat split; try done. exists []. rewrite app_nil_r. split; [done|simpl; lia]. }
  destruct (get_session w c) as [b w1] eqn:Hg. cbn [Py.ret snd].
  destruct (get_session_frame w c b w1 Hg) as (H1 & H2 & H3 & _ & H4).
  repeat split; assumption.
Qed.

(** X9: once a request has gone through the selection and the cache, the
    next one finds the same index and the same session and changes
    nothing. *)
Theorem connect_again w index tg w' :
  media_streamer_connect w = inr (index, tg, w') ->
  media_streamer_connect w' = inr (index, tg, w').
Proof.
  unfold media_streamer_connect, select_index, lookup_client.
  destruct (Py.min_by _ _) as [e|i] eqn:Hs; [discriminate|]. cbn [Py.bind].
  destruct (multi_clients w !! i) as [c|] eqn:Hm; [|discriminate].
  cbn [Py.bind Py.ret].
  destruct (get_session w c) as [b w1] eqn:Hg. intros [= <- <- <-].
  destruct (get_session_frame w c b w1 Hg) as (H1 & H2 & _ & H3 & _).
  rewrite H1, Hs, H2. cbn [Py.bind]. rewrite Hm. cbn [Py.bind Py.ret].
  unfold get_session. rewrite H3. reflexivity.
Qed.

(** X10: without a [Range] header an object of at least one byte is
    answered 200 with its whole length, and an empty object is answered
    416. *)
Theorem no_range_request w request db_id is_video index tg w' fid :
  media_streamer_connect w = inr (index, tg, w') ->
  get_file_properties tg db_id (multi_clients w') = inr fid ->
  headers request !! "Range" = None ->
  exists r,
    fst (streamer w request db_id is_video) = inr r
    /\ (file_size fid <= 0 -> r = response_416 (file_size fid))
    /\ (1 <= file_size fid ->
        status r = 200
        /\ header_get (resp_headers r) "Content-Length"
           = Some (Py.str (file_size fid))).
Proof.
  intros Hc Hr Hh. unfold streamer.
  rewrite (media_streamer_resolved _ _ _ _ _ _ _ _ _ _ _ Hc Hr).
  rewrite (parse_range_no_header request (file_size fid) Hh).
  cbn [Py.bind fst snd]. eexists; split; [reflexivity|]. split.
  - intros Hz. unfold build_response.
    assert (Hn : range_not_satisfiable (file_size fid) 0 (file_size fid - 1)
                 = true) by (unfold range_not_satisfiable; lia).
    now rewrite Hn.
  - intros Hp.
    assert (Hn : range_not_satisfiable (file_size fid) 0 (file_size fid - 1)
                 = false) by (unfold range_not_satisfiable; lia).
    destruct (served_headers request is_video index tg fid 0 _ Hn)
      as (Hs & _ & Hcl & _).
    fold response_of. split.
    + rewrite Hs. unfold range_requested. now rewrite Hh.
    + rewrite Hcl. do 2 f_equal. unfold clamp_until. lia.
Qed.

(** ** Headers of a served response *)

Lemma or_str_truthy a b : Py.truthy b = true -> Py.truthy (Py.or_str a b) = true.
Proof.
  intros Hb. unfold Py.or_str. destruct a as [s|]; [|exact Hb].
  destruct (Py.truthy s) eqn:Hs; assumption.
Qed.

(** X11: a served response always names a media type: the declared one if
    it is not empty, else the one guessed from the name if that is not
    empty, else [application/octet-stream]. *)
Theorem content_type_chain request is_video index tg fid from_bytes until_bytes :
  range_not_satisfiable (file_size fid) from_bytes until_bytes = false ->
  exists t,
    header_get
      (resp_headers
         (response_of request is_video index tg fid from_bytes until_bytes))
      "Content-Type" = Some t
    /\ Py.truthy t = true
    /\ (forall m, mime_type fid = Some m -> Py.truthy m = true -> t = m)
    /\ (forall g, Py.or_opt (mime_type fid) None = None ->
                  guess_type (get_name fid) = Some g -> Py.truthy g = true ->
                  t = g)
    /\ (Py.or_opt (mime_type fid) (guess_type (get_name fid)) = None ->
        t = "application/octet-stream").
Proof.
  intros Hn. unfold response_of, build_response. rewrite Hn.
  eexists. split; [destruct is_video; reflexivity|].
  split; [now apply or_str_truthy|]. repeat split.
  - intros m Hm Ht. unfold Py.or_opt, Py.or_str. now rewrite Hm, Ht, Ht.
  - intros g Hd Hg Ht. unfold Py.or_opt, Py.or_str in *.
    destruct (mime_type fid) as [m|].
    + destruct (Py.truthy m); [discriminate|]. now rewrite Hg, Ht.
    + now rewrite Hg, Ht.
  - intros Hd. now rewrite Hd.
Qed.

Lemma header_get_app hs hs' name :
  header_get (hs ++ hs')%list name
  = match header_get hs name with
    | Some v => Some v
    | None => header_get hs' name
    end.
Proof.
  induction hs as [|[k v] hs IH]; [reflexivity|]. cbn [app header_get].
  destruct (String.eqb k name); [reflexivity|exact IH].
Qed.

(** X12: /video and /dl answer a request alike -- same outcome, status,
    body and state -- except that a served /video response says
    [Content-Disposition: inline] and carries
    [X-Frame-Options: ALLOWALL], which /dl never sends. *)
Theorem video_and_download w request db_id :
  snd (streamer w request db_id true) = snd (streamer w request db_id false)
  /\ match fst (streamer w request db_id true),
           fst (streamer w request db_id false) with
     | inr rv, inr rd =>
         status rv = status rd
         /\ plan_of rv = plan_of rd
         /\ (forall name, name <> "Content-Disposition" ->
                          name <> "X-Frame-Options" ->
                          header_get (resp_headers rv) name
                          = header_get (resp_headers rd) name)
         /\ header_get (resp_headers rd) "X-Frame-Options" = None
         /\ (status rd = 416 -> rv = rd)
         /\ (status rd <> 416 ->
             header_get (resp_headers rv) "X-Frame-Options" = Some "ALLOWALL"
             /\ exists file_id,
                 header_get (resp_headers rv) "Content-Disposition"
                 = Some ("inline; filename=" ++ Py.dquote ++ get_name file_id
                           ++ Py.dquote)%string
                 /\ header_get (resp_headers rd) "Content-Disposition"
                    = Some ("attachment; filename=" ++ Py.dquote
                              ++ get_name file_id ++ Py.dquote)%string)
     | inl ev, inl ed => ev = ed
     | _, _ => False
     end.
Proof.
  unfold streamer, media_streamer.
  destruct (media_streamer_connect w) as [e|[[index tg] w']];
    [split; reflexivity|].
  cbn [fst snd]. split; [reflexivity|]. unfold media_streamer_respond.
  destruct (get_file_properties tg db_id (multi_clients w')) as [e|fid];
    [reflexivity|]. cbn [Py.bind].
  destruct (parse_range request (file_size fid)) as [e|[f u]];
    [reflexivity|]. cbn [Py.bind Py.ret fst snd].
  unfold build_response.
  destruct (range_not_satisfiable (file_size fid) f u).
  { do 5 (split; [reflexivity|]). intros Hs. exfalso. now apply Hs. }
  cbn [status resp_headers plan_of body].
  split; [reflexivity|]. split; [reflexivity|]. split.
  { intros name H1 H2. rewrite header_get_app. cbn [header_get].
    assert (E1 : String.eqb "Content-Disposition" name = false)
      by (apply String.eqb_neq; congruence).
    assert (E2 : String.eqb "X-Frame-Options" name = false)
      by (apply String.eqb_neq; congruence).
    rewrite E1, E2.
    repeat match goal with
           | |- context [String.eqb ?k name] => destruct (String.eqb k name)
           end; reflexivity. }
  split; [reflexivity|]. split.
  { destruct (range_requested request); discriminate. }
  intros _. split; [reflexivity|]. exists fid. split; reflexivity.
Qed.

(** ** Range values that are not two numbers *)

Lemma split_length (s cur : string) :
  length (Py.split_from "-" 0 cur s) = S (Py.count_char "-" s).
Proof.
  revert cur. induction s as [|c s IH]; intros cur; [reflexivity|].
  cbn [Py.split_from Py.count_char String.prefix].
  destruct (ascii_dec "-" c) as [<-|Hne].
  - rewrite prefix_empty. cbn [length String.length Nat.pred].
    now rewrite IH.
  - assert (E : Ascii.eqb c "-" = false) by (apply Ascii.eqb_neq; congruence).
    rewrite E. apply IH.
Qed.

(** A parse error reaches the client as 500 with the error's text. *)
Lemma parse_error_is_500 w request index tg w' fid msg :
  media_streamer_connect w = inr (index, tg, w') ->
  get_file_properties tg (match_info_path request) (multi_clients w') = inr fid ->
  parse_range request (file_size fid) = inl (Py.ValueError msg) ->
  fst (dl_route w request) = HTTPInternalServerError msg
  /\ fst (video_route w request) = HTTPInternalServerError msg.
Proof.
  intros Hc Hr Hp.
  unfold dl_route, video_route, download_handler, video_stream_handler.
  pose proof (media_streamer_resolved get_file_properties get_name guess_type
                w request (match_info_path request) false _ _ _ _ Hc Hr) as Hf.
  pose proof (media_streamer_resolved get_file_properties get_name guess_type
                w request (match_info_path request) true _ _ _ _ Hc Hr) as Ht.
  rewrite Hp in Hf, Ht. cbn [Py.bind] in Hf, Ht.
  destruct (media_streamer _ _ _ _ _ _ false) as [o1 w1].
  destruct (media_streamer _ _ _ _ _ _ true) as [o2 w2].
  cbn [fst] in *. subst. split; reflexivity.
Qed.

(** X13: a [Range] value that, once [bytes=] is removed, does not hold
    exactly one [-] -- a list of ranges, a negative number, a bare number --
    makes the unpacking of line 146 raise [ValueError], and /dl and /video
    answer 500. *)
Theorem dash_count_is_500 w request h index tg w' fid :
  headers request !! "Range" = Some h ->
  Py.count_char "-" (Py.replace "bytes=" EmptyString h) <> 1%nat ->
  media_streamer_connect w = inr (index, tg, w') ->
  get_file_properties tg (match_info_path request) (multi_clients w') = inr fid ->
  exists msg,
    parse_range request (file_size fid) = inl (Py.ValueError msg)
    /\ fst (dl_route w request) = HTTPInternalServerError msg
    /\ fst (video_route w request) = HTTPInternalServerError msg.
Proof.
  intros Hh Hcount Hc Hr.
  assert (Hp : exists msg,
             parse_range request (file_size fid) = inl (Py.ValueError msg)).
  { unfold parse_range. rewrite Hh.
    destruct h as [|c h]; [eexists; reflexivity|].
    pose proof (split_length (Py.replace "bytes=" EmptyString (String c h))
                  EmptyString) as Hlen.
    unfold Py.split. cbn [Py.ret Py.bind].
    destruct (Py.split_from "-" 0 EmptyString _) as [|f [|u [|x parts]]];
      try (eexists; reflexivity).
    cbn [length] in Hlen. congruence. }
  destruct Hp as [msg Hp]. exists msg. split; [exact Hp|].
  exact (parse_error_is_500 w request index tg w' fid msg Hc Hr Hp).
Qed.

(** X14: a non-empty until part that [int()] does not accept makes
    [media_streamer] raise [ValueError], whatever the from part is, and
    /dl and /video answer 500. *)
Theorem unparsable_until_is_500 w request h index tg w' fid :
  headers request !! "Range" = Some h ->
  Py.truthy (until_part h) = true ->
  Py.int_accepts (until_part h) = false ->
  media_streamer_connect w = inr (index, tg, w') ->
  get_file_properties tg (match_info_path request) (multi_clients w') = inr fid ->
  exists msg,
    parse_range request (file_size fid) = inl (Py.ValueError msg)
    /\ fst (dl_route w request) = HTTPInternalServerError msg
    /\ fst (video_route w request) = HTTPInternalServerError msg.
Proof.
  intros Hh Ht Hrej Hc Hr.
  assert (Hp : exists msg,
             parse_range request (file_size fid) = inl (Py.ValueError msg)).
  { unfold parse_range. rewrite Hh.
    destruct h as [|c h]; [eexists; reflexivity|].
    unfold until_part in Ht, Hrej.
    destruct (Py.split "-" _) as [e|parts]; [discriminate|]. cbn [Py.bind].
    destruct parts as [|f [|u [|x parts]]]; try (eexists; reflexivity).
    rewrite Ht. destruct (int_rejected u Hrej) as [mu Hu].
    destruct (Py.int f) as [e|n] eqn:Hf.
    - destruct (int_raises_value_error f e Hf) as [mf ->].
      eexists; reflexivity.
    - cbn [Py.bind]. rewrite Hu. eexists; reflexivity. }
  destruct Hp as [msg Hp]. exists msg. split; [exact Hp|].
  exact (parse_error_is_500 w request index tg w' fid msg Hc Hr Hp).
Qed.

End Served.

(** ** The chunks a plan fetches *)

(** X15: the chunks of a plan start at or before [from]; they reach the
    last requested byte exactly when that byte is not the first byte of a
    chunk, and then the last chunk is the one that holds it. *)
Theorem plan_covers (cs from_bytes until_bytes : Z) :
  0 < cs -> 0 <= from_bytes <= until_bytes ->
  let p := chunk_plan cs from_bytes until_bytes in
  offset p <= from_bytes
  /\ (until_bytes < offset p + part_count p * cs <-> until_bytes mod cs <> 0)
  /\ (until_bytes mod cs <> 0 ->
      offset p + (part_count p - 1) * cs <= until_bytes)
  /\ (until_bytes mod cs = 0 -> offset p + part_count p * cs = until_bytes).
Proof.
  intros Hcs Hr. cbn [chunk_plan offset part_count]. unfold Py.floor_div.
  pose proof (Z.div_mod until_bytes cs ltac:(lia)) as Hu.
  pose proof (Z.div_mod from_bytes cs ltac:(lia)) as Hf.
  pose proof (Z.mod_pos_bound from_bytes cs Hcs).
  pose proof (Z.mod_pos_bound until_bytes cs Hcs).
  replace (from_bytes - from_bytes mod cs) with (from_bytes / cs * cs) by lia.
  rewrite Z.div_mul by lia.
  destruct (Z.eq_dec (until_bytes mod cs) 0) as [Hm|Hm].
  - rewrite (ceil_div_exact _ _ Hcs Hm). repeat split; try nia; try tauto.
  - rewrite (ceil_div_inexact _ _ Hcs Hm). repeat split; try nia; try tauto.
Qed.

(** ** Selection when no client is busier than the first *)

(** X16: when no load in the table is below the load of its first entry,
    the first entry's client is selected. *)
Theorem first_client_when_not_busier (w : World) k v rest :
  work_loads w = (k, v) :: rest ->
  (forall k' v', dict_get (work_loads w) k' = Some v' -> v <= v') ->
  select_index w = inr k.
Proof.
  intros Hw Hmin. unfold select_index.
  destruct (min_by_first (dict_get (work_loads w)) (dict_keys (work_loads w)))
    as (k0 & v0 & pre & post & Hsel & Hkeys & Hk0 & Hpre & _).
  - rewrite Hw. discriminate.
  - intros x Hx. by apply dict_get_key.
  - rewrite Hsel. f_equal.
    destruct pre as [|x pre].
    + rewrite Hw in Hkeys. by injection Hkeys as <-.
    + rewrite Hw in Hkeys. injection Hkeys as <- _.
      destruct (Hpre k) as (vx & Hvx & Hlt); [left|].
      rewrite Hw in Hvx. cbn [dict_get] in Hvx. rewrite Z.eqb_refl in Hvx.
      injection Hvx as <-. pose proof (Hmin k0 v0 Hk0). lia.
Qed.

(** ** The /status route: [loads] *)

Local Close Scope string_scope.

Section SortedDesc.

Context {A : Type} (key : A -> Z).

Let desc (x y : A) : Prop := key y <= key x.

Lemma insert_desc_perm (x : A) (l : list A) :
  Py.insert_desc key x l ≡ₚ x :: l.
Proof.
  induction l as [|y l IH]; [reflexivity|]. cbn [Py.insert_desc].
  destruct (key y <=? key x); [reflexivity|].
  rewrite IH. apply Permutation_swap.
Qed.

Lemma sorted_desc_perm (l : list A) : Py.sorted_desc key l ≡ₚ l.
Proof.
  induction l as [|x l IH]; [reflexivity|]. cbn [Py.sorted_desc].
  rewrite insert_desc_perm. by constructor.
Qed.

Lemma insert_desc_sorted (x : A) (l : list A) :
  StronglySorted desc l -> StronglySorted desc (Py.insert_desc key x l).
Proof.
  induction l as [|y l IH]; intros Hl; cbn [Py.insert_desc].
  - repeat constructor.
  - apply StronglySorted_inv in Hl as [Hl Hy].
    destruct (Z.leb_spec (key y) (key x)) as [Hle|Hgt].
    + constructor; [by constructor|]. constructor; [exact Hle|].
      eapply Forall_impl; [exact Hy|]. unfold desc. intros z Hz. simpl in *. lia.
    + constructor; [by apply IH|].
      rewrite insert_desc_perm. constructor; [unfold desc; lia|exact Hy].
Qed.

Lemma sorted_desc_sorted (l : list A) : StronglySorted desc (Py.sorted_desc key l).
Proof.
  induction l as [|x l IH]; [constructor|]. by apply insert_desc_sorted.
Qed.

(** Elements of equal key keep the order they had. *)
Lemma insert_desc_stable (k : Z) (x : A) (l : list A) :
  filter (fun y => key y = k) (Py.insert_desc key x l)
  = filter (fun y => key y = k) (x :: l).
Proof.
  induction l as [|y l IH]; [reflexivity|]. cbn [Py.insert_desc].
  destruct (Z.leb_spec (key y) (key x)) as [Hle|Hgt]; [reflexivity|].
  rewrite filter_cons, IH, !filter_cons.
  destruct (decide (key y = k)) as [Hy|Hy]; [|reflexivity].
  destruct (decide (key x = k)) as [Hx|Hx]; [lia|reflexivity].
Qed.

Lemma sorted_desc_stable (k : Z) (l : list A) :
  filter (fun y => key y = k) (Py.sorted_desc key l)
  = filter (fun y => key y = k) l.
Proof.
  induction l as [|x l IH]; [reflexivity|]. cbn [Py.sorted_desc].
  rewrite insert_desc_stable, !filter_cons, IH. reflexivity.
Qed.

End SortedDesc.

Lemma dict_set_fresh {V} (d : list (string * V)) k v :
  k ∉ d.*1 -> Py.dict_set d k v = d ++ [(k, v)].
Proof.
  induction d as [|[k' v'] d IH]; intros Hk; [reflexivity|].
  cbn [Py.dict_set]. rewrite fmap_cons, not_elem_of_cons in Hk.
  destruct Hk as [Hne Hk]. cbn [fst] in Hne.
  assert (E : String.eqb k' k = false) by (apply String.eqb_neq; congruence).
  rewrite E, IH by exact Hk. reflexivity.
Qed.

(** [dict(pairs)] keeps the pairs as they are when no key occurs twice. *)
Lemma dict_of_distinct {V} (pairs : list (string * V)) :
  NoDup pairs.*1 -> Py.dict_of pairs = pairs.
Proof.
  unfold Py.dict_of.
  enough (H : forall acc, NoDup (acc ++ pairs).*1 ->
              fold_left (fun d kv => Py.dict_set d kv.1 kv.2) pairs acc
              = acc ++ pairs) by (intros Hn; apply (H [] Hn)).
  induction pairs as [|[k v] pairs IH]; intros acc Hn; cbn [fold_left].
  - by rewrite app_nil_r.
  - cbn [fst snd]. rewrite dict_set_fresh.
    + rewrite IH; rewrite <- app_assoc; [reflexivity|exact Hn].
    + rewrite fmap_app, NoDup_app in Hn. destruct Hn as (_ & Hn & _).
      intros Hin. apply (Hn k Hin). rewrite fmap_cons. left.
Qed.

Lemma bot_label_inj (i j : nat) : bot_label i = bot_label j -> i = j.
Proof.
  unfold bot_label.
  change ("bot" ++ ?s)%string with (String "b" (String "o" (String "t" s))).
  intros [= H]. apply str_inj in H. lia.
Qed.

Lemma status_loads_unfold (work_loads : list (Z * Z)) :
  status_loads work_loads
  = imap (fun c item => (bot_label c, snd item)) (Py.sorted_desc snd work_loads).
Proof.
  unfold status_loads. apply dict_of_distinct.
  rewrite fmap_imap.
  rewrite (imap_ext _ (fun c _ => bot_label c)) by reflexivity.
  rewrite imap_seq_0. apply NoDup_fmap_2; [|apply NoDup_seq].
  intros i j. apply bot_label_inj.
Qed.

(** X17: the report of /status counts the clients of [multi_clients] and
    lists every load of [work_loads] once, greatest first, under the
    labels [bot1], [bot2], ... given by rank. *)
Theorem status_report (readable_time username version_ : string) (w : World) :
  let report := root_route_handler readable_time username version_ w in
  connected_bots report = Z.of_nat (size (multi_clients w))
  /\ length (loads report) = length (work_loads w)
  /\ (loads report).*2 ≡ₚ (work_loads w).*2
  /\ StronglySorted (fun a b => b <= a) (loads report).*2
  /\ (forall i, (i < length (work_loads w))%nat ->
                (loads report).*1 !! i = Some (bot_label i)).
Proof.
  cbn zeta. cbn [root_route_handler connected_bots loads].
  split; [reflexivity|]. rewrite status_loads_unfold.
  assert (H2 : (imap (fun c item => (bot_label c, snd item))
                  (Py.sorted_desc snd (work_loads w))).*2
               = (Py.sorted_desc snd (work_loads w)).*2).
  { rewrite fmap_imap. apply imap_const. }
  rewrite H2. split; [|split; [|split]].
  - rewrite length_imap. apply Permutation_length, sorted_desc_perm.
  - by rewrite sorted_desc_perm.
  - pose proof (sorted_desc_sorted snd (work_loads w)) as Hs. clear H2.
    induction Hs as [|x l Hl IH Hx]; [constructor|].
    rewrite fmap_cons. constructor; [exact IH|].
    apply Forall_fmap. eapply Forall_impl; [exact Hx|]. by intros y Hy.
  - intros i Hi. rewrite fmap_imap.
    rewrite (imap_ext _ (fun c _ => bot_label c)) by reflexivity.
    assert (Hlen : length (Py.sorted_desc snd (work_loads w))
                   = length (work_loads w))
      by apply Permutation_length, sorted_desc_perm.
    rewrite imap_seq_0, list_lookup_fmap, lookup_seq_lt by lia. reflexivity.
Qed.

(** ** Requests in flight do not disturb each other *)

Lemma connect_frame w index tg w' :
  media_streamer_connect w = inr (index, tg, w') ->
  work_loads w' = work_loads w /\ multi_clients w' = multi_clients w.
Proof.
  unfold media_streamer_connect.
  destruct (select_index w) as [e|i]; [discriminate|]. cbn [Py.bind].
  destruct (lookup_client w i) as [e|c]; [discriminate|]. cbn [Py.bind].
  destruct (get_session w c) as [b w1] eqn:Hg. intros [= <- <- <-].
  destruct (get_session_frame w c b w1 Hg) as (H1 & H2 & _). by split.
Qed.

Lemma set_loads_same (w : World) :
  {| work_loads := work_loads w; multi_clients := multi_clients w;
     class_cache := class_cache w; constructed := constructed w |} = w.
Proof. by destruct w. Qed.

Section Isolation.

Variable get_file_properties :
  ByteStreamer -> string -> gmap Z Client -> Py.M FileId.
Variable get_name : FileId -> string.
Variable guess_type : string -> option string.

Let streamer := media_streamer get_file_properties get_name guess_type.
Let stepf := step get_file_properties get_name guess_type.
Let runf := run get_file_properties get_name guess_type.

Variable table : list (Z * Z).
Variable clients : gmap Z Client.

Let w0 := world (boot table clients).

(** What holds of the system after the events [evs], none of which changes
    the load table. *)
Let isolated (evs : list Event) (s : System) : Prop :=
  work_loads (world s) = table
  /\ multi_clients (world s) = clients
  /\ (world s = w0
      \/ exists index tg, media_streamer_connect w0 = inr (index, tg, world s))
  /\ length (tasks s) = length (arrivals evs)
  /\ forall i t, tasks s !! i = Some t ->
       exists request db_id is_video,
         arrivals evs !! i = Some (request, db_id, is_video)
         /\ match t with
            | Started request' db_id' is_video' =>
                (request', db_id', is_video') = (request, db_id, is_video)
            | Awaiting request' db_id' is_video' index tg =>
                (request', db_id', is_video') = (request, db_id, is_video)
                /\ exists w1, media_streamer_connect w0 = inr (index, tg, w1)
            | Finished _ outcome =>
                outcome = fst (streamer w0 request db_id is_video)
            end.

Lemma run_snoc s evs ev : runf s (evs ++ [ev]) = stepf (runf s evs) ev.
Proof. unfold runf, run. by rewrite fold_left_app. Qed.

Lemma isolated_boot : isolated [] (boot table clients).
Proof.
  unfold isolated. repeat split; try reflexivity; [by left|].
  intros i t Ht. cbn in Ht. by rewrite lookup_nil in Ht.
Qed.

Lemma isolated_step evs s ev :
  (forall l, ev = SetLoads l -> l = table) ->
  isolated evs s -> isolated (evs ++ [ev]) (stepf s ev).
Proof.
  intros Hev (Hl & Hm & Hw & Hlen & Ht). unfold isolated.
  unfold arrivals. rewrite omap_app. fold (arrivals evs).
  destruct ev as [request db_id is_video|i|l]; cbn [omap option_bind mbind].
  - (* a request arrives *)
    cbn [stepf step world tasks]. repeat split; try assumption.
    + rewrite !length_app, Hlen. reflexivity.
    + intros i t Hi. apply lookup_app_Some in Hi as [Hi|[Hge Hi]].
      * destruct (Ht i t Hi) as (r & d & v & Ha & Hmatch).
        exists r, d, v. split; [|exact Hmatch]. by apply lookup_app_l_Some.
      * apply list_lookup_singleton_Some in Hi as [Hz <-].
        exists request, db_id, is_video. split; [|reflexivity].
        rewrite lookup_app_r by lia.
        replace (i - length (arrivals evs))%nat with 0%nat by lia. reflexivity.
  - (* a coroutine is resumed *)
    rewrite app_nil_r. cbn [stepf step]. unfold resume.
    destruct (tasks s !! i) as [[request db_id is_video
                                |request db_id is_video index tg|tg o]|] eqn:Hi;
      [| |by repeat split|by repeat split].
    + destruct (Ht i _ Hi) as (r & d & v & Ha & [= -> -> ->]).
      destruct (media_streamer_connect (world s)) as [e|[[index tg] w1]] eqn:Hc.
      * (* the selection fails: only possible in the boot state *)
        destruct Hw as [Hw|(index & tg & Hw)];
          [|rewrite (connect_again _ _ _ _ Hw) in Hc; discriminate].
        cbn [world tasks]. repeat split; try assumption; [by left| |].
        { by rewrite length_insert. }
        intros j t Hj.
        apply list_lookup_insert_Some in Hj as [(-> & <- & _)|[Hne Hj]];
          [|by apply Ht].
        exists r, d, v. split; [exact Ha|].
        unfold streamer, media_streamer. rewrite <- Hw, Hc. reflexivity.
      * destruct (connect_frame _ _ _ _ Hc) as [Hl1 Hm1].
        assert (Hc0 : media_streamer_connect w0 = inr (index, tg, w1)).
        { destruct Hw as [Hw|(index0 & tg0 & Hw)]; [by rewrite <- Hw|].
          rewrite (connect_again _ _ _ _ Hw) in Hc. injection Hc as <- <- <-.
          exact Hw. }
        cbn [world tasks]. repeat split; try congruence.
        { right. by exists index, tg. }
        { by rewrite length_insert. }
        intros j t Hj.
        apply list_lookup_insert_Some in Hj as [(-> & <- & _)|[Hne Hj]];
          [|by apply Ht].
        exists r, d, v. split; [exact Ha|]. split; [reflexivity|by exists w1].
    + destruct (Ht i _ Hi) as (r & d & v & Ha & [= -> -> ->] & w1 & Hc0).
      cbn [world tasks]. repeat split; try assumption.
      { by rewrite length_insert. }
      intros j t Hj.
      apply list_lookup_insert_Some in Hj as [(-> & <- & _)|[Hne Hj]];
        [|by apply Ht].
      exists r, d, v. split; [exact Ha|].
      unfold streamer, media_streamer. rewrite Hc0. cbn [fst].
      destruct (connect_frame _ _ _ _ Hc0) as [_ Hm1].
      rewrite Hm1, Hm. reflexivity.
  - (* other code writes the load table it already holds *)
    rewrite app_nil_r. rewrite (Hev l eq_refl).
    cbn [stepf step world tasks].
    assert (E : {| work_loads := table;
                   multi_clients := multi_clients (world s);
                   class_cache := class_cache (world s);
                   constructed := constructed (world s) |} = world s)
      by (rewrite <- Hl; apply set_loads_same).
    rewrite E. repeat split; assumption.
Qed.

Lemma isolated_run evs :
  (forall l, SetLoads l ∈ evs -> l = table) ->
  isolated evs (runf (boot table clients) evs).
Proof.
  induction evs as [|ev evs IH] using rev_ind; intros Hev.
  - apply isolated_boot.
  - rewrite run_snoc. apply isolated_step.
    + intros l ->. apply Hev, elem_of_app. right. left.
    + apply IH. intros l Hin. apply Hev, elem_of_app. by left.
Qed.

(** X18: as long as the load table is not changed, every request that is
    handled among others, however their pieces are interleaved, ends with
    the outcome it would have had alone on the freshly started process. *)
Theorem requests_are_isolated evs i tg outcome :
  (forall l, SetLoads l ∈ evs -> l = table) ->
  tasks (runf (boot table clients) evs) !! i = Some (Finished tg outcome) ->
  exists request db_id is_video,
    arrivals evs !! i = Some (request, db_id, is_video)
    /\ outcome = fst (streamer w0 request db_id is_video).
Proof.
  intros Hev Hi.
  destruct (isolated_run evs Hev) as (_ & _ & _ & _ & Ht).
  destruct (Ht i _ Hi) as (r & d & v & Ha & Ho). by exists r, d, v.
Qed.

End Isolation.

(** ** The further properties on the small deployment *)

Local Open Scope string_scope.
Local Open Scope Z_scope.

Lemma parse_range_formatted_witness :
  parse_range (Demo.with_range "bytes=5-10") 100 = inr (5, 10).
Proof.
  apply (parse_range_formatted (Demo.with_range "bytes=5-10") 100 5 10
           "bytes=5-10");
    [split; [lia|vm_compute; reflexivity]
    |split; [lia|vm_compute; reflexivity]
    |reflexivity|left; reflexivity].
Defined.

Lemma range_request_served_witness :
  exists r,
    Demo.stream 100 (Demo.with_range "bytes=5-10") = inr r
    /\ status r = 206
    /\ header_get (resp_headers r) "Content-Range" = Some "bytes 5-10/100"
    /\ header_get (resp_headers r) "Content-Length" = Some "6".
Proof.
  eapply (range_request_served (Demo.resolver 100) Demo.get_name
            Demo.guess_type Demo.w0 (Demo.with_range "bytes=5-10") "abc123"
            false _ _ _ Demo.file_100 5 10);
    [reflexivity|reflexivity|reflexivity|lia|simpl; lia
    |vm_compute; reflexivity].
Defined.

(** An [until] of 4301 digits is not converted: the request is answered
    500, whatever the size of the object. *)
Example until_of_4301_digits_is_500 :
  http_status
    (Demo.download (Py.int_limit + 1)
       (Demo.with_range ("bytes=0-" ++ Py.str Py.int_limit)))
  = Some 500.
Proof. vm_compute. reflexivity. Qed.

Lemma open_ended_request_witness :
  (exists r,
      Demo.stream 100 (Demo.with_range "bytes=90-") = inr r
      /\ status r = 206
      /\ header_get (resp_headers r) "Content-Range" = Some "bytes 90-99/100"
      /\ header_get (resp_headers r) "Content-Length" = Some "10")
  /\ (exists r,
        Demo.stream 100 (Demo.with_range "bytes=150-") = inr r
        /\ r = response_416 100).
Proof.
  split.
  - edestruct (open_ended_request (Demo.resolver 100) Demo.get_name
                 Demo.guess_type Demo.w0 (Demo.with_range "bytes=90-")
                 "abc123" false)
      with (fid := Demo.file_100) (a := 90)
      as (r & Hm & Hin & _);
      [reflexivity|reflexivity|reflexivity
      |split; [lia|vm_compute; reflexivity]|].
    exists r. split; [exact Hm|]. apply Hin. simpl; lia.
  - edestruct (open_ended_request (Demo.resolver 100) Demo.get_name
                 Demo.guess_type Demo.w0 (Demo.with_range "bytes=150-")
                 "abc123" false)
      with (fid := Demo.file_100) (a := 150)
      as (r & Hm & _ & Hout);
      [reflexivity|reflexivity|reflexivity
      |split; [lia|vm_compute; reflexivity]|].
    exists r. split; [exact Hm|]. apply Hout. simpl; lia.
Defined.

Lemma announced_length_bounds_witness :
  exists r,
    Demo.stream 100 (Demo.with_range "bytes=90-100") = inr r
    /\ header_get (resp_headers r) "Content-Length" = Some "10".
Proof.
  eexists. split; [reflexivity|].
  edestruct (announced_length_bounds (Demo.resolver 100) Demo.get_name
               Demo.guess_type Demo.w0 (Demo.with_range "bytes=90-100")
               "abc123" false)
    as (index & tg & w' & fid & f & u & _ & Hr & Hp & Hlen);
    [reflexivity|discriminate|].
  injection Hr as <-.
  change (inr (90, 100) = (inr (f, u) : Py.M (Z * Z))) in Hp.
  injection Hp as <- <-.
  destruct Hlen as (n & Hcl & -> & _); [simpl; lia|].
  exact Hcl.
Defined.

Lemma until_size_is_clamped_witness :
  build_response Demo.get_name Demo.guess_type (Demo.with_range "bytes=0-100")
    false 1 {| bs_id := 0; bs_client := 11 |} Demo.file_100 0 100
  = build_response Demo.get_name Demo.guess_type (Demo.with_range "bytes=0-100")
      false 1 {| bs_id := 0; bs_client := 11 |} Demo.file_100 0 99
  /\ status
       (build_response Demo.get_name Demo.guess_type
          (Demo.with_range "bytes=0-100") false 1
          {| bs_id := 0; bs_client := 11 |} Demo.file_100 0 100) <> 416.
Proof.
  apply (until_size_is_clamped Demo.get_name Demo.guess_type
           (Demo.with_range "bytes=0-100") false 1
           {| bs_id := 0; bs_client := 11 |} Demo.file_100 0).
  simpl; lia.
Defined.

Lemma empty_pool_is_500_witness :
  download_handler (Demo.resolver 100) Demo.get_name Demo.guess_type
    Demo.no_loads Demo.without_range
  = (HTTPInternalServerError "min() arg is an empty sequence", Demo.no_loads)
  /\ video_stream_handler (Demo.resolver 100) Demo.get_name Demo.guess_type
       Demo.no_loads Demo.without_range
     = (HTTPInternalServerError "min() arg is an empty sequence", Demo.no_loads).
Proof.
  apply (empty_pool_is_500 (Demo.resolver 100) Demo.get_name Demo.guess_type
           Demo.no_loads Demo.without_range).
  reflexivity.
Defined.

Lemma missing_client_is_500_witness :
  download_handler (Demo.resolver 100) Demo.get_name Demo.guess_type
    Demo.no_client Demo.without_range
  = (HTTPInternalServerError "7", Demo.no_client)
  /\ video_stream_handler (Demo.resolver 100) Demo.get_name Demo.guess_type
       Demo.no_client Demo.without_range
     = (HTTPInternalServerError "7", Demo.no_client).
Proof.
  apply (missing_client_is_500 (Demo.resolver 100) Demo.get_name
           Demo.guess_type Demo.no_client Demo.without_range 7);
    reflexivity.
Defined.

Lemma connect_again_witness :
  exists index tg w',
    media_streamer_connect Demo.w0 = inr (index, tg, w')
    /\ media_streamer_connect w' = inr (index, tg, w').
Proof.
  do 3 eexists. split; [reflexivity|].
  apply (connect_again Demo.w0). reflexivity.
Defined.

Lemma no_range_request_witness :
  (exists r,
      Demo.stream 100 Demo.without_range = inr r
      /\ status r = 200
      /\ header_get (resp_headers r) "Content-Length" = Some "100")
  /\ (exists r,
        Demo.stream 0 Demo.without_range = inr r
        /\ r = response_416 0).
Proof.
  split.
  - edestruct (no_range_request (Demo.resolver 100) Demo.get_name
                 Demo.guess_type Demo.w0 Demo.without_range "abc123" false)
      with (fid := Demo.file_100)
      as (r & Hm & _ & Hwhole);
      [reflexivity|reflexivity|reflexivity|].
    exists r. split; [exact Hm|]. apply Hwhole. simpl; lia.
  - edestruct (no_range_request (Demo.resolver 0) Demo.get_name
                 Demo.guess_type Demo.w0 Demo.without_range "abc123" false)
      with (fid := {| file_size := 0; mime_type := Some "video/mp4" |})
      as (r & Hm & Hempty & _);
      [reflexivity|reflexivity|reflexivity|].
    exists r. split; [exact Hm|]. apply Hempty. simpl; lia.
Defined.

Lemma content_type_chain_witness :
  exists t,
    header_get
      (resp_headers
         (build_response Demo.get_name Demo.guess_type Demo.without_range
            false 1 {| bs_id := 0; bs_client := 11 |}
            {| file_size := 100; mime_type := Some EmptyString |} 0 99))
      "Content-Type" = Some t
    /\ Py.truthy t = true
    /\ t = "video/mp4".
Proof.
  destruct (content_type_chain Demo.get_name Demo.guess_type
              Demo.without_range false 1 {| bs_id := 0; bs_client := 11 |}
              {| file_size := 100; mime_type := Some EmptyString |} 0 99
              eq_refl) as (t & Ht & Hne & _ & Hg & _).
  exists t. split; [exact Ht|]. split; [exact Hne|].
  apply (Hg "video/mp4"); reflexivity.
Defined.

Lemma dash_count_is_500_witness :
  exists msg,
    parse_range (Demo.with_range "bytes=0-1,5-9") 100
    = inl (Py.ValueError msg)
    /\ Demo.download 100 (Demo.with_range "bytes=0-1,5-9")
       = HTTPInternalServerError msg
    /\ fst (video_stream_handler (Demo.resolver 100) Demo.get_name
              Demo.guess_type Demo.w0 (Demo.with_range "bytes=0-1,5-9"))
       = HTTPInternalServerError msg.
Proof.
  eapply (dash_count_is_500 (Demo.resolver 100) Demo.get_name Demo.guess_type
            Demo.w0 (Demo.with_range "bytes=0-1,5-9") "bytes=0-1,5-9"
            _ _ _ Demo.file_100);
    [reflexivity|vm_compute; discriminate|reflexivity|reflexivity].
Defined.

Lemma unparsable_until_is_500_witness :
  exists msg,
    parse_range (Demo.with_range "bytes=5-end") 100 = inl (Py.ValueError msg)
    /\ Demo.download 100 (Demo.with_range "bytes=5-end")
       = HTTPInternalServerError msg
    /\ fst (video_stream_handler (Demo.resolver 100) Demo.get_name
              Demo.guess_type Demo.w0 (Demo.with_range "bytes=5-end"))
       = HTTPInternalServerError msg.
Proof.
  eapply (unparsable_until_is_500 (Demo.resolver 100) Demo.get_name
            Demo.guess_type Demo.w0 (Demo.with_range "bytes=5-end")
            "bytes=5-end" _ _ _ Demo.file_100); reflexivity.
Defined.

Lemma plan_covers_witness :
  let p := chunk_plan chunk_size 500000 1500000 in
  offset p <= 500000
  /\ (1500000 < offset p + part_count p * chunk_size
      <-> 1500000 mod chunk_size <> 0)
  /\ (1500000 mod chunk_size <> 0 ->
      offset p + (part_count p - 1) * chunk_size <= 1500000)
  /\ (1500000 mod chunk_size = 0 ->
      offset p + part_count p * chunk_size = 1500000).
Proof.
  apply (plan_covers chunk_size 500000 1500000); [reflexivity|lia].
Defined.

Lemma first_client_when_not_busier_witness : select_index Demo.idle = inr 0.
Proof.
  apply (first_client_when_not_busier Demo.idle 0 0 [(1, 0); (2, 0)]);
    [reflexivity|].
  intros k' v'. cbn [work_loads Demo.idle dict_get].
  destruct (0 =? k'); [intros [= <-]; lia|].
  destruct (1 =? k'); [intros [= <-]; lia|].
  destruct (2 =? k'); [intros [= <-]; lia|discriminate].
Defined.

Lemma requests_are_isolated_witness :
  exists request db_id is_video,
    arrivals Demo.two_served !! 0%nat = Some (request, db_id, is_video)
    /\ inr (build_response Demo.get_name Demo.guess_type
              (Demo.with_range "bytes=0-9") false 1
              {| bs_id := 0; bs_client := 11 |} Demo.file_100 0 9)
       = fst (media_streamer (Demo.resolver 100) Demo.get_name Demo.guess_type
                (world (boot Demo.loads Demo.clients)) request db_id is_video).
Proof.
  eapply (requests_are_isolated (Demo.resolver 100) Demo.get_name
            Demo.guess_type Demo.loads Demo.clients Demo.two_served 0%nat).
  - intros l Hin. repeat (apply elem_of_cons in Hin as [Hin|Hin]; [discriminate|]).
    inversion Hin.
  - reflexivity.
Defined.
